(** * Arduino MIDI Library: encoder, parser and read cycle of [MidiInterface]

    A shallow embedding of [src/MIDI.hpp] (class declared in [src/MIDILite.h]).
    Bytes, status bytes, channels and [MidiType] codes are integers ([Z]);
    the C++ members of [MidiInterface] are the fields of the record
    [Interface]; every member function becomes a function on that record.
    The transport's receive queue is passed to [parse] and [read] as a list
    (its head is what [mTransport.read()] returns next), the bytes handed to
    [mTransport.write] are logged in the field [written]. *)

From Stdlib Require Import ZArith List Bool Lia.
Import ListNotations.
Local Open Scope Z_scope.

(** ** midi_Defs.h *)

(** Modelled from the spec: [midi_Defs.h] is not among the sources.  The
    [MidiType] codes are the MIDI status codes of the spec's data model
    (channel-voice types on status nibbles 0x8 to 0xE, system common
    0xF0 to 0xF7, system real-time 0xF8 to 0xFF); [Undefined_F4],
    [Undefined_F5] and [Undefined_FD] carry their value in their name. *)
Module MidiType.
Definition InvalidType          : Z := 0x00.
Definition NoteOff              : Z := 0x80.
Definition NoteOn               : Z := 0x90.
Definition AfterTouchPoly       : Z := 0xA0.
Definition ControlChange        : Z := 0xB0.
Definition ProgramChange        : Z := 0xC0.
Definition AfterTouchChannel    : Z := 0xD0.
Definition PitchBend            : Z := 0xE0.
Definition SystemExclusiveStart : Z := 0xF0.
Definition TimeCodeQuarterFrame : Z := 0xF1.
Definition SongPosition         : Z := 0xF2.
Definition SongSelect           : Z := 0xF3.
Definition Undefined_F4         : Z := 0xF4.
Definition Undefined_F5         : Z := 0xF5.
Definition TuneRequest          : Z := 0xF6.
Definition SystemExclusiveEnd   : Z := 0xF7.
Definition Clock                : Z := 0xF8.
Definition Tick                 : Z := 0xF9.
Definition Start                : Z := 0xFA.
Definition Continue             : Z := 0xFB.
Definition Stop                 : Z := 0xFC.
Definition Undefined_FD         : Z := 0xFD.
Definition ActiveSensing        : Z := 0xFE.
Definition SystemReset          : Z := 0xFF.
End MidiType.
Import MidiType.

(** Modelled from the spec: the selection controllers of the wire format
    (RPN 101 and 100, NRPN 99 and 98); [midi_Defs.h] is not among the
    sources. *)
Definition RPNLSB  : Z := 100.
Definition RPNMSB  : Z := 101.
Definition NRPNLSB : Z := 98.
Definition NRPNMSB : Z := 99.

(** Modelled from the spec: channels run from 1 to 16, 0 is the omni
    wildcard (and the channel of a system message), everything from 17 on
    is the "off" sentinel; [midi_Defs.h] is not among the sources. *)
Definition MIDI_CHANNEL_OMNI : Z := 0.
Definition MIDI_CHANNEL_OFF  : Z := 17.

(** Modelled from the spec: the fixed receive timeout, the 300 ms of the
    comment in [read]; [midi_Defs.h] is not among the sources. *)
Definition ActiveSensingTimeout : Z := 300.

(** Modelled from the spec: the two sticky bits of the error state.
    [midi_Defs.h] is not among the sources; [ErrorParse] is bit 0 and
    [ErrorActiveSensingTimeout] bit 1, so that
    [ErrorActiveSensingTimeout - 1] indexes the ParseError bit, as the
    spec's design notes say of [read]. *)
Definition ErrorParse                : Z := 0.
Definition ErrorActiveSensingTimeout : Z := 1.

(** ** Machine integers *)

(** [unsigned] ([mPendingMessageIndex]): 16 bits on the AVR boards the
    library targets.  [expectedLength - 1] is an [int] that the comparison
    with the index converts to [unsigned]. *)
Definition UnsignedBits : Z := 16.
Definition toUnsigned (x : Z) : Z := x mod 2 ^ UnsignedBits.

(** [unsigned long] (the time stamps): 32 bits. *)
Definition toULong (x : Z) : Z := x mod 2 ^ 32.

(** [int8_t] ([mLastError]), kept as its 8-bit pattern. *)
Definition toInt8 (x : Z) : Z := x mod 2 ^ 8.

(** [t] is one of the [case] labels [l] of a [switch]. *)
Definition oneOf (t : Z) (l : list Z) : bool := existsb (Z.eqb t) l.

(** ** midi_Settings.h and midi_Message.h *)

(** Modelled from the spec: the configuration options the spec's external
    interfaces list, under the names the code uses ([Settings::...]);
    [midi_Settings.h] is not among the sources. *)
Record Settings := {
  UseRunningStatus : bool;
  HandleNullVelocityNoteOnAsNoteOff : bool;
  Use1ByteParsing : bool;
  UseSenderActiveSensing : bool;
  UseReceiverActiveSensing : bool;
  SenderActiveSensingPeriodicity : Z
}.

(** Modelled from the spec: the message of the spec's data model, with the
    fields [parse] and [begin] assign; [midi_Message.h] is not among the
    sources. *)
Record Message := {
  channel : Z;
  type    : Z;
  data1   : Z;
  data2   : Z;
  valid   : bool;
  length  : Z
}.

(** [byte mPendingMessage[3]].  A store at an index past 2 is outside the
    array in C++; here it changes nothing, and a load there gives 0. *)
Record Pending := { byte0 : Z; byte1 : Z; byte2 : Z }.

Definition pendingGet (i : Z) (p : Pending) : Z :=
  if i =? 0 then byte0 p else if i =? 1 then byte1 p
  else if i =? 2 then byte2 p else 0.

Definition pendingSet (i v : Z) (p : Pending) : Pending :=
  if i =? 0 then {| byte0 := v; byte1 := byte1 p; byte2 := byte2 p |}
  else if i =? 1 then {| byte0 := byte0 p; byte1 := v; byte2 := byte2 p |}
  else if i =? 2 then {| byte0 := byte0 p; byte1 := byte1 p; byte2 := v |}
  else p.

(** ** The members of [MidiInterface] *)

Record Interface := {
  written : list Z;
  mInputChannel : Z;
  mRunningStatus_RX : Z;
  mRunningStatus_TX : Z;
  mPendingMessage : Pending;
  mPendingMessageExpectedLength : Z;
  mPendingMessageIndex : Z;
  mCurrentRpnNumber : Z;
  mCurrentNrpnNumber : Z;
  mMessage : Message;
  mLastMessageSentTime : Z;
  mLastMessageReceivedTime : Z;
  mSenderActiveSensingPeriodicity : Z;
  mReceiverActiveSensingActivated : bool;
  mLastError : Z
}.

Definition setWritten (v : list Z) (s : Interface) : Interface :=
  {| written := v; mInputChannel := mInputChannel s;
     mRunningStatus_RX := mRunningStatus_RX s; mRunningStatus_TX := mRunningStatus_TX s;
     mPendingMessage := mPendingMessage s;
     mPendingMessageExpectedLength := mPendingMessageExpectedLength s;
     mPendingMessageIndex := mPendingMessageIndex s;
     mCurrentRpnNumber := mCurrentRpnNumber s; mCurrentNrpnNumber := mCurrentNrpnNumber s;
     mMessage := mMessage s; mLastMessageSentTime := mLastMessageSentTime s;
     mLastMessageReceivedTime := mLastMessageReceivedTime s;
     mSenderActiveSensingPeriodicity := mSenderActiveSensingPeriodicity s;
     mReceiverActiveSensingActivated := mReceiverActiveSensingActivated s;
     mLastError := mLastError s |}.

Definition setInputChannel (v : Z) (s : Interface) : Interface :=
  {| written := written s; mInputChannel := v;
     mRunningStatus_RX := mRunningStatus_RX s; mRunningStatus_TX := mRunningStatus_TX s;
     mPendingMessage := mPendingMessage s;
     mPendingMessageExpectedLength := mPendingMessageExpectedLength s;
     mPendingMessageIndex := mPendingMessageIndex s;
     mCurrentRpnNumber := mCurrentRpnNumber s; mCurrentNrpnNumber := mCurrentNrpnNumber s;
     mMessage := mMessage s; mLastMessageSentTime := mLastMessageSentTime s;
     mLastMessageReceivedTime := mLastMessageReceivedTime s;
     mSenderActiveSensingPeriodicity := mSenderActiveSensingPeriodicity s;
     mReceiverActiveSensingActivated := mReceiverActiveSensingActivated s;
     mLastError := mLastError s |}.

Definition setRunningStatus_RX (v : Z) (s : Interface) : Interface :=
  {| written := written s; mInputChannel := mInputChannel s;
     mRunningStatus_RX := v; mRunningStatus_TX := mRunningStatus_TX s;
     mPendingMessage := mPendingMessage s;
     mPendingMessageExpectedLength := mPendingMessageExpectedLength s;
     mPendingMessageIndex := mPendingMessageIndex s;
     mCurrentRpnNumber := mCurrentRpnNumber s; mCurrentNrpnNumber := mCurrentNrpnNumber s;
     mMessage := mMessage s; mLastMessageSentTime := mLastMessageSentTime s;
     mLastMessageReceivedTime := mLastMessageReceivedTime s;
     mSenderActiveSensingPeriodicity := mSenderActiveSensingPeriodicity s;
     mReceiverActiveSensingActivated := mReceiverActiveSensingActivated s;
     mLastError := mLastError s |}.

Definition setRunningStatus_TX (v : Z) (s : Interface) : Interface :=
  {| written := written s; mInputChannel := mInputChannel s;
     mRunningStatus_RX := mRunningStatus_RX s; mRunningStatus_TX := v;
     mPendingMessage := mPendingMessage s;
     mPendingMessageExpectedLength := mPendingMessageExpectedLength s;
     mPendingMessageIndex := mPendingMessageIndex s;
     mCurrentRpnNumber := mCurrentRpnNumber s; mCurrentNrpnNumber := mCurrentNrpnNumber s;
     mMessage := mMessage s; mLastMessageSentTime := mLastMessageSentTime s;
     mLastMessageReceivedTime := mLastMessageReceivedTime s;
     mSenderActiveSensingPeriodicity := mSenderActiveSensingPeriodicity s;
     mReceiverActiveSensingActivated := mReceiverActiveSensingActivated s;
     mLastError := mLastError s |}.

Definition setPendingMessage (v : Pending) (s : Interface) : Interface :=
  {| written := written s; mInputChannel := mInputChannel s;
     mRunningStatus_RX := mRunningStatus_RX s; mRunningStatus_TX := mRunningStatus_TX s;
     mPendingMessage := v;
     mPendingMessageExpectedLength := mPendingMessageExpectedLength s;
     mPendingMessageIndex := mPendingMessageIndex s;
     mCurrentRpnNumber := mCurrentRpnNumber s; mCurrentNrpnNumber := mCurrentNrpnNumber s;
     mMessage := mMessage s; mLastMessageSentTime := mLastMessageSentTime s;
     mLastMessageReceivedTime := mLastMessageReceivedTime s;
     mSenderActiveSensingPeriodicity := mSenderActiveSensingPeriodicity s;
     mReceiverActiveSensingActivated := mReceiverActiveSensingActivated s;
     mLastError := mLastError s |}.

Definition setExpectedLength (v : Z) (s : Interface) : Interface :=
  {| written := written s; mInputChannel := mInputChannel s;
     mRunningStatus_RX := mRunningStatus_RX s; mRunningStatus_TX := mRunningStatus_TX s;
     mPendingMessage := mPendingMessage s;
     mPendingMessageExpectedLength := v;
     mPendingMessageIndex := mPendingMessageIndex s;
     mCurrentRpnNumber := mCurrentRpnNumber s; mCurrentNrpnNumber := mCurrentNrpnNumber s;
     mMessage := mMessage s; mLastMessageSentTime := mLastMessageSentTime s;
     mLastMessageReceivedTime := mLastMessageReceivedTime s;
     mSenderActiveSensingPeriodicity := mSenderActiveSensingPeriodicity s;
     mReceiverActiveSensingActivated := mReceiverActiveSensingActivated s;
     mLastError := mLastError s |}.

Definition setIndex (v : Z) (s : Interface) : Interface :=
  {| written := written s; mInputChannel := mInputChannel s;
     mRunningStatus_RX := mRunningStatus_RX s; mRunningStatus_TX := mRunningStatus_TX s;
     mPendingMessage := mPendingMessage s;
     mPendingMessageExpectedLength := mPendingMessageExpectedLength s;
     mPendingMessageIndex := v;
     mCurrentRpnNumber := mCurrentRpnNumber s; mCurrentNrpnNumber := mCurrentNrpnNumber s;
     mMessage := mMessage s; mLastMessageSentTime := mLastMessageSentTime s;
     mLastMessageReceivedTime := mLastMessageReceivedTime s;
     mSenderActiveSensingPeriodicity := mSenderActiveSensingPeriodicity s;
     mReceiverActiveSensingActivated := mReceiverActiveSensingActivated s;
     mLastError := mLastError s |}.

Definition setRpnNumber (v : Z) (s : Interface) : Interface :=
  {| written := written s; mInputChannel := mInputChannel s;
     mRunningStatus_RX := mRunningStatus_RX s; mRunningStatus_TX := mRunningStatus_TX s;
     mPendingMessage := mPendingMessage s;
     mPendingMessageExpectedLength := mPendingMessageExpectedLength s;
     mPendingMessageIndex := mPendingMessageIndex s;
     mCurrentRpnNumber := v; mCurrentNrpnNumber := mCurrentNrpnNumber s;
     mMessage := mMessage s; mLastMessageSentTime := mLastMessageSentTime s;
     mLastMessageReceivedTime := mLastMessageReceivedTime s;
     mSenderActiveSensingPeriodicity := mSenderActiveSensingPeriodicity s;
     mReceiverActiveSensingActivated := mReceiverActiveSensingActivated s;
     mLastError := mLastError s |}.

Definition setNrpnNumber (v : Z) (s : Interface) : Interface :=
  {| written := written s; mInputChannel := mInputChannel s;
     mRunningStatus_RX := mRunningStatus_RX s; mRunningStatus_TX := mRunningStatus_TX s;
     mPendingMessage := mPendingMessage s;
     mPendingMessageExpectedLength := mPendingMessageExpectedLength s;
     mPendingMessageIndex := mPendingMessageIndex s;
     mCurrentRpnNumber := mCurrentRpnNumber s; mCurrentNrpnNumber := v;
     mMessage := mMessage s; mLastMessageSentTime := mLastMessageSentTime s;
     mLastMessageReceivedTime := mLastMessageReceivedTime s;
     mSenderActiveSensingPeriodicity := mSenderActiveSensingPeriodicity s;
     mReceiverActiveSensingActivated := mReceiverActiveSensingActivated s;
     mLastError := mLastError s |}.

Definition setMessage (v : Message) (s : Interface) : Interface :=
  {| written := written s; mInputChannel := mInputChannel s;
     mRunningStatus_RX := mRunningStatus_RX s; mRunningStatus_TX := mRunningStatus_TX s;
     mPendingMessage := mPendingMessage s;
     mPendingMessageExpectedLength := mPendingMessageExpectedLength s;
     mPendingMessageIndex := mPendingMessageIndex s;
     mCurrentRpnNumber := mCurrentRpnNumber s; mCurrentNrpnNumber := mCurrentNrpnNumber s;
     mMessage := v; mLastMessageSentTime := mLastMessageSentTime s;
     mLastMessageReceivedTime := mLastMessageReceivedTime s;
     mSenderActiveSensingPeriodicity := mSenderActiveSensingPeriodicity s;
     mReceiverActiveSensingActivated := mReceiverActiveSensingActivated s;
     mLastError := mLastError s |}.

Definition setLastSentTime (v : Z) (s : Interface) : Interface :=
  {| written := written s; mInputChannel := mInputChannel s;
     mRunningStatus_RX := mRunningStatus_RX s; mRunningStatus_TX := mRunningStatus_TX s;
     mPendingMessage := mPendingMessage s;
     mPendingMessageExpectedLength := mPendingMessageExpectedLength s;
     mPendingMessageIndex := mPendingMessageIndex s;
     mCurrentRpnNumber := mCurrentRpnNumber s; mCurrentNrpnNumber := mCurrentNrpnNumber s;
     mMessage := mMessage s; mLastMessageSentTime := v;
     mLastMessageReceivedTime := mLastMessageReceivedTime s;
     mSenderActiveSensingPeriodicity := mSenderActiveSensingPeriodicity s;
     mReceiverActiveSensingActivated := mReceiverActiveSensingActivated s;
     mLastError := mLastError s |}.

Definition setLastReceivedTime (v : Z) (s : Interface) : Interface :=
  {| written := written s; mInputChannel := mInputChannel s;
     mRunningStatus_RX := mRunningStatus_RX s; mRunningStatus_TX := mRunningStatus_TX s;
     mPendingMessage := mPendingMessage s;
     mPendingMessageExpectedLength := mPendingMessageExpectedLength s;
     mPendingMessageIndex := mPendingMessageIndex s;
     mCurrentRpnNumber := mCurrentRpnNumber s; mCurrentNrpnNumber := mCurrentNrpnNumber s;
     mMessage := mMessage s; mLastMessageSentTime := mLastMessageSentTime s;
     mLastMessageReceivedTime := v;
     mSenderActiveSensingPeriodicity := mSenderActiveSensingPeriodicity s;
     mReceiverActiveSensingActivated := mReceiverActiveSensingActivated s;
     mLastError := mLastError s |}.

Definition setReceiverActivated (v : bool) (s : Interface) : Interface :=
  {| written := written s; mInputChannel := mInputChannel s;
     mRunningStatus_RX := mRunningStatus_RX s; mRunningStatus_TX := mRunningStatus_TX s;
     mPendingMessage := mPendingMessage s;
     mPendingMessageExpectedLength := mPendingMessageExpectedLength s;
     mPendingMessageIndex := mPendingMessageIndex s;
     mCurrentRpnNumber := mCurrentRpnNumber s; mCurrentNrpnNumber := mCurrentNrpnNumber s;
     mMessage := mMessage s; mLastMessageSentTime := mLastMessageSentTime s;
     mLastMessageReceivedTime := mLastMessageReceivedTime s;
     mSenderActiveSensingPeriodicity := mSenderActiveSensingPeriodicity s;
     mReceiverActiveSensingActivated := v;
     mLastError := mLastError s |}.

Definition setLastError (v : Z) (s : Interface) : Interface :=
  {| written := written s; mInputChannel := mInputChannel s;
     mRunningStatus_RX := mRunningStatus_RX s; mRunningStatus_TX := mRunningStatus_TX s;
     mPendingMessage := mPendingMessage s;
     mPendingMessageExpectedLength := mPendingMessageExpectedLength s;
     mPendingMessageIndex := mPendingMessageIndex s;
     mCurrentRpnNumber := mCurrentRpnNumber s; mCurrentNrpnNumber := mCurrentNrpnNumber s;
     mMessage := mMessage s; mLastMessageSentTime := mLastMessageSentTime s;
     mLastMessageReceivedTime := mLastMessageReceivedTime s;
     mSenderActiveSensingPeriodicity := mSenderActiveSensingPeriodicity s;
     mReceiverActiveSensingActivated := mReceiverActiveSensingActivated s;
     mLastError := v |}.

(** ** Static helpers *)

Definition getTypeFromStatusByte (inStatus : Z) : Z :=
  if (inStatus <? 0x80) || (inStatus =? Undefined_F4) ||
     (inStatus =? Undefined_F5) || (inStatus =? Undefined_FD)
  then InvalidType
  else if inStatus <? 0xf0 then Z.land inStatus 0xf0
  else inStatus.

Definition getChannelFromStatusByte (inStatus : Z) : Z :=
  Z.land inStatus 0x0f + 1.

Definition isChannelMessage (inType : Z) : bool :=
  (inType =? NoteOff) || (inType =? NoteOn) || (inType =? ControlChange) ||
  (inType =? AfterTouchPoly) || (inType =? AfterTouchChannel) ||
  (inType =? PitchBend) || (inType =? ProgramChange).

Definition getStatus (inType inChannel : Z) : Z :=
  Z.lor inType (Z.land (inChannel - 1) 0x0f).

(** The constructor; the pending buffer is not initialised by it, [buf]
    stands for whatever the array holds. *)
Definition MidiInterface (cfg : Settings) (buf : Pending) : Interface :=
  {| written := [];
     mInputChannel := 0;
     mRunningStatus_RX := InvalidType;
     mRunningStatus_TX := InvalidType;
     mPendingMessage := buf;
     mPendingMessageExpectedLength := 0;
     mPendingMessageIndex := 0;
     mCurrentRpnNumber := 0xffff;
     mCurrentNrpnNumber := 0xffff;
     mMessage := {| channel := 0; type := InvalidType; data1 := 0; data2 := 0;
                    valid := false; length := 0 |};
     mLastMessageSentTime := 0;
     mLastMessageReceivedTime := 0;
     mSenderActiveSensingPeriodicity := SenderActiveSensingPeriodicity cfg;
     mReceiverActiveSensingActivated := false;
     mLastError := 0 |}.

(** [mTransport.write] *)
Definition write (b : Z) (s : Interface) : Interface :=
  setWritten (written s ++ [b]) s.

Definition resetInput (s : Interface) : Interface :=
  setRunningStatus_RX InvalidType (setExpectedLength 0 (setIndex 0 s)).

Definition inputFilter (inChannel : Z) (s : Interface) : bool :=
  if (type (mMessage s) >=? NoteOff) && (type (mMessage s) <=? PitchBend) then
    if (channel (mMessage s) =? inChannel) || (inChannel =? MIDI_CHANNEL_OMNI)
    then true else false
  else true.

(** The error bits of [mLastError]. *)
Definition setErrorBit (bit : Z) (s : Interface) : Interface :=
  setLastError (toInt8 (Z.lor (mLastError s) (Z.shiftl 1 bit))) s.

Definition clearErrorBit (bit : Z) (s : Interface) : Interface :=
  setLastError (toInt8 (Z.land (mLastError s) (Z.lnot (Z.shiftl 1 bit)))) s.

(** What one pass through the body of [parse] ends in: a [return] of a
    value, or the tail [return Settings::Use1ByteParsing ? false : parse()]. *)
Inductive Outcome := Done (result : bool) | Again.

Section Members.

(** The template parameters: the settings, and the transport's answer to
    [beginTransmission] for a message type.  [now] below is what
    [Platform::now()] returns during a call. *)
Variable cfg : Settings.
Variable beginTransmission : Z -> bool.

Definition begin (now inChannel : Z) (s : Interface) : Interface :=
  setMessage {| channel := 0; type := InvalidType; data1 := 0; data2 := 0;
                valid := false; length := 0 |}
   (setLastSentTime now
   (setNrpnNumber 0xffff (setRpnNumber 0xffff
   (setExpectedLength 0 (setIndex 0
   (setRunningStatus_RX InvalidType (setRunningStatus_TX InvalidType
   (setInputChannel inChannel s)))))))).

(** *** Output *)

Definition updateLastSentTime (now : Z) (s : Interface) : Interface :=
  if UseSenderActiveSensing cfg && negb (mSenderActiveSensingPeriodicity s =? 0)
  then setLastSentTime now s else s.

Definition sendRealTime (now inType : Z) (s : Interface) : Interface :=
  if oneOf inType [Clock; Start; Stop; Continue; ActiveSensing; SystemReset] then
    if beginTransmission inType
    then updateLastSentTime now (write inType s)
    else s
  else s.

Definition sendTick (now : Z) (s : Interface) : Interface :=
  sendRealTime now Tick s.

Definition sendActiveSensing (now : Z) (s : Interface) : Interface :=
  sendRealTime now ActiveSensing s.

Definition send (now inType inData1 inData2 inChannel : Z) (s : Interface)
  : Interface :=
  if inType <=? PitchBend then
    if (inChannel >=? MIDI_CHANNEL_OFF) || (inChannel =? MIDI_CHANNEL_OMNI) ||
       (inType <? 0x80)
    then s
    else
      let inData1 := Z.land inData1 0x7f in
      let inData2 := Z.land inData2 0x7f in
      let status := getStatus inType inChannel in
      if beginTransmission inType then
        let s := if UseRunningStatus cfg then
                   if negb (mRunningStatus_TX s =? status)
                   then write status (setRunningStatus_TX status s)
                   else s
                 else write status s in
        let s := write inData1 s in
        let s := if negb (inType =? ProgramChange) &&
                    negb (inType =? AfterTouchChannel)
                 then write inData2 s else s in
        updateLastSentTime now s
      else s
  else if (inType >=? Clock) && (inType <=? SystemReset) then
    sendRealTime now inType s
  else s.

Definition sendControlChange (now inControlNumber inControlValue inChannel : Z)
  (s : Interface) : Interface :=
  send now ControlChange inControlNumber inControlValue inChannel s.

Definition beginRpn (now inNumber inChannel : Z) (s : Interface) : Interface :=
  if negb (mCurrentRpnNumber s =? inNumber) then
    let numMsb := Z.land 0x7f (Z.shiftr inNumber 7) in
    let numLsb := Z.land 0x7f inNumber in
    setRpnNumber inNumber
      (sendControlChange now RPNMSB numMsb inChannel
        (sendControlChange now RPNLSB numLsb inChannel s))
  else s.

Definition beginNrpn (now inNumber inChannel : Z) (s : Interface) : Interface :=
  if negb (mCurrentNrpnNumber s =? inNumber) then
    let numMsb := Z.land 0x7f (Z.shiftr inNumber 7) in
    let numLsb := Z.land 0x7f inNumber in
    setNrpnNumber inNumber
      (sendControlChange now NRPNMSB numMsb inChannel
        (sendControlChange now NRPNLSB numLsb inChannel s))
  else s.

(** *** Input *)

(** The parse-error exit: set the ErrorParse bit, [resetInput()],
    [return false]. *)
Definition parseError (s : Interface) : Outcome * Interface :=
  (Done false, resetInput (setErrorBit ErrorParse s)).

(** Lines 757 to 775: the extracted byte opens a new pending message; under
    a channel-voice running status a data byte gets the remembered status
    byte put in front of it. *)
Definition startPending (extracted : Z) (s : Interface) : Interface :=
  let s := setPendingMessage (pendingSet 0 extracted (mPendingMessage s)) s in
  if isChannelMessage (getTypeFromStatusByte (mRunningStatus_RX s)) then
    if extracted <? 0x80 then
      setIndex 1
        (setPendingMessage
           (pendingSet 1 extracted
              (pendingSet 0 (mRunningStatus_RX s) (mPendingMessage s))) s)
    else s
  else s.

(** Lines 833 to 854: the length check that follows the [switch] of the
    Idle branch. *)
Definition idleLengthCheck (pendingType : Z) (s : Interface)
  : Outcome * Interface :=
  if mPendingMessageIndex s >=? toUnsigned (mPendingMessageExpectedLength s - 1)
  then
    let m := {| channel := getChannelFromStatusByte (pendingGet 0 (mPendingMessage s));
                type := pendingType;
                data1 := pendingGet 1 (mPendingMessage s);
                data2 := 0;
                valid := true;
                length := 1 |} in
    (Done true, setMessage m (setExpectedLength 0 (setIndex 0 s)))
  else (Again, setIndex (toUnsigned (mPendingMessageIndex s + 1)) s).

(** Lines 754 to 855: no message is pending. *)
Definition parseIdle (extracted : Z) (s : Interface) : Outcome * Interface :=
  let s := startPending extracted s in
  let pendingType := getTypeFromStatusByte (pendingGet 0 (mPendingMessage s)) in
  if oneOf pendingType
       [Start; Continue; Stop; Clock; Tick; ActiveSensing; SystemReset; TuneRequest]
  then
    let m := {| channel := 0; type := pendingType; data1 := 0; data2 := 0;
                valid := true; length := length (mMessage s) |} in
    (Done true, setExpectedLength 0 (setIndex 0 (setMessage m s)))
  else if oneOf pendingType
       [ProgramChange; AfterTouchChannel; TimeCodeQuarterFrame; SongSelect]
  then idleLengthCheck pendingType (setExpectedLength 2 s)
  else if oneOf pendingType
       [NoteOn; NoteOff; ControlChange; PitchBend; AfterTouchPoly; SongPosition]
  then idleLengthCheck pendingType (setExpectedLength 3 s)
  else parseError s.

(** Lines 904 to 954: the extracted byte joins the pending message. *)
Definition accumulate (extracted : Z) (s : Interface) : Outcome * Interface :=
  let s := setPendingMessage
             (pendingSet (mPendingMessageIndex s) extracted (mPendingMessage s)) s in
  if mPendingMessageIndex s >=? toUnsigned (mPendingMessageExpectedLength s - 1)
  then
    let buf := mPendingMessage s in
    let ty := getTypeFromStatusByte (pendingGet 0 buf) in
    let m := {| channel := if isChannelMessage ty
                           then getChannelFromStatusByte (pendingGet 0 buf) else 0;
                type := ty;
                data1 := pendingGet 1 buf;
                data2 := if mPendingMessageExpectedLength s =? 3
                         then pendingGet 2 buf else 0;
                valid := true;
                length := length (mMessage s) |} in
    let s := setExpectedLength 0 (setIndex 0 (setMessage m s)) in
    (Done true,
     if oneOf ty [NoteOff; NoteOn; AfterTouchPoly; ControlChange; ProgramChange;
                  AfterTouchChannel; PitchBend]
     then setRunningStatus_RX (pendingGet 0 buf) s
     else setRunningStatus_RX InvalidType s)
  else (Again, setIndex (toUnsigned (mPendingMessageIndex s + 1)) s).

(** Lines 856 to 955: a message is pending. *)
Definition parsePending (extracted : Z) (s : Interface) : Outcome * Interface :=
  if extracted >=? 0x80 then
    if oneOf extracted
         [Clock; Start; Tick; Continue; Stop; ActiveSensing; SystemReset]
    then
      (Done true,
       setMessage {| channel := 0; type := extracted; data1 := 0; data2 := 0;
                     valid := true; length := 1 |} s)
    else if oneOf extracted [SystemExclusiveStart; SystemExclusiveEnd]
    then parseError s
    else accumulate extracted s
  else accumulate extracted s.

(** The body of [parse] once a byte has been read, up to its [return]. *)
Definition parseByte (extracted : Z) (s : Interface) : Outcome * Interface :=
  let s := clearErrorBit ErrorParse s in
  if extracted =? Undefined_FD then (Again, s)
  else if mPendingMessageIndex s =? 0 then parseIdle extracted s
  else parsePending extracted s.

(** [parse()], by recursion on the transport's receive queue [rx]: the
    result, what is left of the queue, and the interface. *)
Fixpoint parse (rx : list Z) (s : Interface) {struct rx}
  : bool * list Z * Interface :=
  match rx with
  | [] => (false, [], s)
  | extracted :: rx' =>
      match parseByte extracted s with
      | (Done r, s') => (r, rx', s')
      | (Again, s') =>
          if Use1ByteParsing cfg then (false, rx', s') else parse rx' s'
      end
  end.

Definition handleNullVelocityNoteOnAsNoteOff (s : Interface) : Interface :=
  if HandleNullVelocityNoteOnAsNoteOff cfg &&
     (type (mMessage s) =? NoteOn) && (data2 (mMessage s) =? 0)
  then
    let m := mMessage s in
    setMessage {| channel := channel m; type := NoteOff; data1 := data1 m;
                  data2 := data2 m; valid := valid m; length := length m |} s
  else s.

(** Lines 680 to 684 of [read]: the sender's heartbeat, when it is due. *)
Definition heartbeat (now : Z) (s : Interface) : Interface :=
  if UseSenderActiveSensing cfg && (mSenderActiveSensingPeriodicity s >? 0) &&
     (toULong (now - mLastMessageSentTime s) >? mSenderActiveSensingPeriodicity s)
  then setLastSentTime now (sendActiveSensing now s)
  else s.

(** Lines 686 to 691 of [read]: the receiver's timeout check. *)
Definition checkTimeout (now : Z) (s : Interface) : Interface :=
  if UseReceiverActiveSensing cfg && mReceiverActiveSensingActivated s &&
     (toULong (mLastMessageReceivedTime s + ActiveSensingTimeout) <? now)
  then setErrorBit ErrorActiveSensingTimeout (setReceiverActivated false s)
  else s.

(** [read(inChannel)] *)
Definition read (now inChannel : Z) (rx : list Z) (s : Interface)
  : bool * list Z * Interface :=
  let s := heartbeat now s in
  let s := checkTimeout now s in
  if inChannel >=? MIDI_CHANNEL_OFF then (false, rx, s)
  else
    match parse rx s with
    | (false, rx', s) => (false, rx', s)
    | (true, rx', s) =>
        let s :=
          if UseReceiverActiveSensing cfg && (type (mMessage s) =? ActiveSensing)
          then
            let s := setReceiverActivated true s in
            if negb (Z.land (mLastError s)
                            (Z.shiftl 1 (ErrorActiveSensingTimeout - 1)) =? 0)
            then clearErrorBit ErrorActiveSensingTimeout s
            else s
          else s in
        let s :=
          if UseReceiverActiveSensing cfg && mReceiverActiveSensingActivated s
          then setLastReceivedTime now s else s in
        let s := handleNullVelocityNoteOnAsNoteOff s in
        (inputFilter inChannel s, rx', s)
    end.

(** Feeding the parser a byte sequence one byte at a time: each byte is the
    only one the transport holds when [parse] is called; the messages that
    the calls completed, in order, and the interface afterwards. *)
Fixpoint feed (bytes : list Z) (s : Interface) : list Message * Interface :=
  match bytes with
  | [] => ([], s)
  | b :: bs =>
      let '(r, _, s') := parse [b] s in
      let '(ms, s'') := feed bs s' in
      ((if r then [mMessage s'] else []) ++ ms, s'')
  end.

(** Calling [parse] again and again on a queue that holds all the bytes,
    at most [n] times: the completed messages and the interface. *)
Fixpoint drain (n : nat) (rx : list Z) (s : Interface) : list Message * Interface :=
  match n, rx with
  | O, _ => ([], s)
  | _, [] => ([], s)
  | S n', _ :: _ =>
      let '(r, rx', s') := parse rx s in
      let '(ms, s'') := drain n' rx' s' in
      ((if r then [mMessage s'] else []) ++ ms, s'')
  end.

(** The bytes a send operation [op] hands to the transport. *)
Definition emitted (op : Interface -> Interface) (s : Interface) : list Z :=
  skipn (List.length (written s)) (written (op s)).

End Members.

(** Settings, a transport that accepts every transmission and a freshly
    begun interface, for the examples. *)
Definition plainSettings : Settings :=
  {| UseRunningStatus := false; HandleNullVelocityNoteOnAsNoteOff := true;
     Use1ByteParsing := true; UseSenderActiveSensing := false;
     UseReceiverActiveSensing := false; SenderActiveSensingPeriodicity := 0 |}.

Definition watchdogSettings : Settings :=
  {| UseRunningStatus := false; HandleNullVelocityNoteOnAsNoteOff := true;
     Use1ByteParsing := true; UseSenderActiveSensing := false;
     UseReceiverActiveSensing := true; SenderActiveSensingPeriodicity := 0 |}.

Definition alwaysReady (t : Z) : bool := true.

Definition zeroBuf : Pending := {| byte0 := 0; byte1 := 0; byte2 := 0 |}.

Definition fresh (cfg : Settings) : Interface :=
  begin 0 1 (MidiInterface cfg zeroBuf).

(** ** The other send operations, [read()] and the test drivers *)

(** Modelled from the spec: the data-entry, increment and decrement
    controllers of the wire format (6 and 38, 96, 97) and the lower end of
    the pitch-bend range, whose 14 bits start at -8192; [midi_Defs.h] is not
    among the sources. *)
Definition DataEntryMSB  : Z := 6.
Definition DataEntryLSB  : Z := 38.
Definition DataIncrement : Z := 96.
Definition DataDecrement : Z := 97.
Definition MIDI_PITCHBEND_MIN : Z := -8192.

(** A value handed to [mTransport.write(byte)]. *)
Definition toByte (x : Z) : Z := x mod 2 ^ 8.

Section Senders.

Variable cfg : Settings.
Variable beginTransmission : Z -> bool.

(** [send(const MidiMessage&)] *)
Definition sendMessage (now : Z) (inMessage : Message) (s : Interface)
  : Interface :=
  if negb (valid inMessage) then s
  else
    let s :=
      if beginTransmission (type inMessage) then
        let status := getStatus (type inMessage) (channel inMessage) in
        let s := write status s in
        let s := if length inMessage >? 1 then write (data1 inMessage) s else s in
        if length inMessage >? 2 then write (data2 inMessage) s else s
      else s in
    updateLastSentTime cfg now s.

Definition sendNoteOn (now inNoteNumber inVelocity inChannel : Z)
  (s : Interface) : Interface :=
  send cfg beginTransmission now NoteOn inNoteNumber inVelocity inChannel s.

Definition sendNoteOff (now inNoteNumber inVelocity inChannel : Z)
  (s : Interface) : Interface :=
  send cfg beginTransmission now NoteOff inNoteNumber inVelocity inChannel s.

Definition sendProgramChange (now inProgramNumber inChannel : Z)
  (s : Interface) : Interface :=
  send cfg beginTransmission now ProgramChange inProgramNumber 0 inChannel s.

(** [sendPitchBend(int, Channel)] *)
Definition sendPitchBend (now inPitchValue inChannel : Z) (s : Interface)
  : Interface :=
  let bend := toUnsigned (inPitchValue - MIDI_PITCHBEND_MIN) in
  send cfg beginTransmission now PitchBend
    (Z.land bend 0x7f) (Z.land (Z.shiftr bend 7) 0x7f) inChannel s.

Definition sendCommon (now inType inData1 : Z) (s : Interface) : Interface :=
  if oneOf inType [TimeCodeQuarterFrame; SongPosition; SongSelect; TuneRequest]
  then
    let s :=
      if beginTransmission inType then
        let s := write inType s in
        let s :=
          if inType =? TimeCodeQuarterFrame then write (toByte inData1) s
          else if inType =? SongPosition then
            write (Z.land (Z.shiftr inData1 7) 0x7f) (write (Z.land inData1 0x7f) s)
          else if inType =? SongSelect then write (Z.land inData1 0x7f) s
          else s in
        updateLastSentTime cfg now s
      else s in
    if UseRunningStatus cfg then setRunningStatus_TX InvalidType s else s
  else s.

Definition sendTuneRequest (now : Z) (s : Interface) : Interface :=
  sendCommon now TuneRequest 0 s.

(** [sendTimeCodeQuarterFrame(DataByte)] *)
Definition sendTimeCodeQuarterFrame (now inData : Z) (s : Interface)
  : Interface :=
  sendCommon now TimeCodeQuarterFrame inData s.

(** [sendTimeCodeQuarterFrame(DataByte, DataByte)] *)
Definition sendTimeCodeQuarterFrameNibbles (now inTypeNibble inValuesNibble : Z)
  (s : Interface) : Interface :=
  let data := toByte (Z.lor (Z.shiftl (Z.land inTypeNibble 0x07) 4)
                            (Z.land inValuesNibble 0x0f)) in
  sendTimeCodeQuarterFrame now data s.

Definition sendSongPosition (now inBeats : Z) (s : Interface) : Interface :=
  sendCommon now SongPosition inBeats s.

Definition sendSongSelect (now inSongNumber : Z) (s : Interface) : Interface :=
  sendCommon now SongSelect inSongNumber s.

(** [sendRpnValue(unsigned, Channel)]; [sendNrpnValue] has the same body. *)
Definition sendRpnValue (now inValue inChannel : Z) (s : Interface) : Interface :=
  let valMsb := Z.land 0x7f (Z.shiftr inValue 7) in
  let valLsb := Z.land 0x7f inValue in
  sendControlChange cfg beginTransmission now DataEntryLSB valLsb inChannel
    (sendControlChange cfg beginTransmission now DataEntryMSB valMsb inChannel s).

Definition sendNrpnValue (now inValue inChannel : Z) (s : Interface) : Interface :=
  let valMsb := Z.land 0x7f (Z.shiftr inValue 7) in
  let valLsb := Z.land 0x7f inValue in
  sendControlChange cfg beginTransmission now DataEntryLSB valLsb inChannel
    (sendControlChange cfg beginTransmission now DataEntryMSB valMsb inChannel s).

Definition sendRpnIncrement (now inAmount inChannel : Z) (s : Interface)
  : Interface :=
  sendControlChange cfg beginTransmission now DataIncrement inAmount inChannel s.

Definition sendRpnDecrement (now inAmount inChannel : Z) (s : Interface)
  : Interface :=
  sendControlChange cfg beginTransmission now DataDecrement inAmount inChannel s.

Definition endRpn (now inChannel : Z) (s : Interface) : Interface :=
  setRpnNumber 0xffff
    (sendControlChange cfg beginTransmission now RPNMSB 0x7f inChannel
       (sendControlChange cfg beginTransmission now RPNLSB 0x7f inChannel s)).

Definition endNrpn (now inChannel : Z) (s : Interface) : Interface :=
  setNrpnNumber 0xffff
    (sendControlChange cfg beginTransmission now NRPNMSB 0x7f inChannel
       (sendControlChange cfg beginTransmission now NRPNLSB 0x7f inChannel s)).

(** [read()], on the main input channel. *)
Definition readMain (now : Z) (rx : list Z) (s : Interface)
  : bool * list Z * Interface :=
  read cfg beginTransmission now (mInputChannel s) rx s.

(** Calling [read(inChannel)] once per incoming byte, each byte the only
    one in the transport at the clock value paired with it: the messages
    of the calls that returned true, and the interface afterwards. *)
Fixpoint readEach (inChannel : Z) (input : list (Z * Z)) (s : Interface)
  : list Message * Interface :=
  match input with
  | [] => ([], s)
  | (now, b) :: rest =>
      let '(r, _, s') := read cfg beginTransmission now inChannel [b] s in
      let '(ms, s'') := readEach inChannel rest s' in
      ((if r then [mMessage s'] else []) ++ ms, s'')
  end.

End Senders.

(** A channel-voice send request, and a run of them sent one after the
    other. *)
Record Voice := { vType : Z; vData1 : Z; vData2 : Z; vChannel : Z }.

Definition sendVoice (cfg : Settings) (beginTransmission : Z -> bool)
  (now : Z) (s : Interface) (v : Voice) : Interface :=
  send cfg beginTransmission now (vType v) (vData1 v) (vData2 v) (vChannel v) s.

Definition sendAll (cfg : Settings) (beginTransmission : Z -> bool)
  (now : Z) (vs : list Voice) (s : Interface) : Interface :=
  fold_left (sendVoice cfg beginTransmission now) vs s.

(** ** Vocabulary of the statements *)

(** The [case] labels of the [switch] in the Idle branch of [parse], by the
    wire length they stand for, and the real-time labels of the [switch] in
    its pending branch. *)
Definition singleByteTypes : list Z :=
  [Start; Continue; Stop; Clock; Tick; ActiveSensing; SystemReset; TuneRequest].
Definition twoByteTypes : list Z :=
  [ProgramChange; AfterTouchChannel; TimeCodeQuarterFrame; SongSelect].
Definition threeByteTypes : list Z :=
  [NoteOn; NoteOff; ControlChange; PitchBend; AfterTouchPoly; SongPosition].
Definition realTimeTypes : list Z :=
  [Clock; Start; Tick; Continue; Stop; ActiveSensing; SystemReset].

(** What the completion of a pending message leaves behind. *)
Record Completed (d : Z) (s s' : Interface) : Prop := {
  done_message :
    mMessage s' =
    (let b0 := byte0 (mPendingMessage s) in
     let ty := getTypeFromStatusByte b0 in
     {| channel := if isChannelMessage ty then getChannelFromStatusByte b0 else 0;
        type := ty;
        data1 := if mPendingMessageIndex s =? 1 then d else byte1 (mPendingMessage s);
        data2 := if mPendingMessageExpectedLength s =? 3 then d else 0;
        valid := true;
        length := length (mMessage s) |});
  done_index : mPendingMessageIndex s' = 0;
  done_expected : mPendingMessageExpectedLength s' = 0;
  done_running :
    mRunningStatus_RX s' =
    (let b0 := byte0 (mPendingMessage s) in
     if isChannelMessage (getTypeFromStatusByte b0) then b0 else InvalidType);
  done_buffer :
    mPendingMessage s' = pendingSet (mPendingMessageIndex s) d (mPendingMessage s);
  done_error : mLastError s' = mLastError s
}.

(** Two interfaces in the same pending state, two messages that decode
    alike, two passes of the parser that end alike. *)
Definition samePending (s t : Interface) : Prop :=
  mPendingMessage s = mPendingMessage t /\
  mPendingMessageIndex s = mPendingMessageIndex t /\
  mPendingMessageExpectedLength s = mPendingMessageExpectedLength t /\
  mRunningStatus_RX s = mRunningStatus_RX t.

Definition sameDecoded (m n : Message) : Prop :=
  type m = type n /\ channel m = channel n /\ data1 m = data1 n /\
  data2 m = data2 n /\ valid m = valid n.

Definition sameResult (x y : Outcome * Interface) : Prop :=
  fst x = fst y /\ samePending (snd x) (snd y) /\
  (fst x = Done true -> sameDecoded (mMessage (snd x)) (mMessage (snd y))).

(** The three ways into the parse-error exit: an unrecognised or invalid
    status byte in Idle, a data byte in Idle without a channel-voice running
    status, a sysex marker while a message is pending. *)
Definition parseErrorTrigger (b : Z) (s : Interface) : Prop :=
  (mPendingMessageIndex s = 0 /\
   In b [SystemExclusiveStart; Undefined_F4; Undefined_F5; SystemExclusiveEnd]) \/
  (mPendingMessageIndex s = 0 /\ 0 <= b <= 127 /\
   isChannelMessage (getTypeFromStatusByte (mRunningStatus_RX s)) = false) \/
  (mPendingMessageIndex s <> 0 /\
   In b [SystemExclusiveStart; SystemExclusiveEnd]).

(** The pending index stays within the three-byte buffer. *)
Definition pendingOK (s : Interface) : Prop :=
  mPendingMessageIndex s = 0 \/
  (mPendingMessageIndex s = 1 /\
   (mPendingMessageExpectedLength s = 2 \/ mPendingMessageExpectedLength s = 3)) \/
  (mPendingMessageIndex s = 2 /\ mPendingMessageExpectedLength s = 3).

(** [m] is a valid Control-Change of controller [c] with value [v] on
    channel [ch]. *)
Definition controlChange (m : Message) (c v ch : Z) : Prop :=
  type m = ControlChange /\ channel m = ch /\ data1 m = c /\ data2 m = v /\
  valid m = true.

(** A parser that has just completed NoteOn(60, 100) on channel 1. *)
Definition afterNoteOn : Interface :=
  snd (feed plainSettings [0x90; 60; 100] (fresh plainSettings)).

(** An interface whose last byte was the invalid status 0xF4. *)
Definition afterParseError : Interface :=
  snd (parse plainSettings [Undefined_F4] (fresh plainSettings)).

(** A run of the read cycle with the receive watchdog enabled, on channel
    1: an ActiveSensing byte at time 0, nothing until time 301, nothing at
    time 302, and an ActiveSensing byte at time 400. *)
Definition armed : Interface :=
  snd (read watchdogSettings alwaysReady 0 1 [ActiveSensing]
         (fresh watchdogSettings)).
Definition timedOut : Interface :=
  snd (read watchdogSettings alwaysReady 301 1 [] armed).
Definition stillSilent : Interface :=
  snd (read watchdogSettings alwaysReady 302 1 [] timedOut).
Definition revived : Interface :=
  snd (read watchdogSettings alwaysReady 400 1 [ActiveSensing] timedOut).

(** ** Tactics *)

Ltac in_cases H :=
  cbn in H; repeat (destruct H as [H | H]); try contradiction.

Ltac same_fields H :=
  destruct H as (?Hbuf & ?Hidx & ?Hlen & ?Hrs).

Ltac split_ifs :=
  repeat match goal with
         | |- context [if ?c then _ else _] => destruct c
         end.

Ltac same_done :=
  unfold sameResult, samePending, sameDecoded; cbn;
  repeat split; (reflexivity || assumption || discriminate || congruence).

(** * Properties *)

(** ** Status bytes *)

Lemma isChannelMessage_cases ty :
  isChannelMessage ty = true ->
  ty = NoteOff \/ ty = NoteOn \/ ty = ControlChange \/ ty = AfterTouchPoly \/
  ty = AfterTouchChannel \/ ty = PitchBend \/ ty = ProgramChange.
Proof.
  unfold isChannelMessage. rewrite !orb_true_iff, !Z.eqb_eq. tauto.
Qed.

Lemma oneOf_In t l : oneOf t l = true <-> In t l.
Proof.
  unfold oneOf. rewrite existsb_exists. split.
  - intros (x & Hx & E). apply Z.eqb_eq in E. now subst.
  - intros H. exists t. split; [assumption | apply Z.eqb_refl].
Qed.

Lemma channel_cases ch :
  1 <= ch <= 16 ->
  In ch [1; 2; 3; 4; 5; 6; 7; 8; 9; 10; 11; 12; 13; 14; 15; 16].
Proof. intros H. cbn. lia. Qed.

(** What the encoder's status byte decodes to. *)
Lemma getStatus_decodes ty ch :
  isChannelMessage ty = true -> 1 <= ch <= 16 ->
  getTypeFromStatusByte (getStatus ty ch) = ty /\
  getChannelFromStatusByte (getStatus ty ch) = ch /\
  0x80 <= getStatus ty ch < 0xf0.
Proof.
  intros Hty Hch. apply isChannelMessage_cases in Hty. apply channel_cases in Hch.
  cbn in Hch.
  repeat (destruct Hty as [Hty | Hty]); subst ty;
    repeat (destruct Hch as [Hch | Hch]; [subst ch; vm_compute; intuition congruence|]);
    contradiction.
Qed.

Lemma getType_status b :
  getTypeFromStatusByte b <> InvalidType ->
  (b <? 0x80) = false /\ b <> Undefined_FD.
Proof.
  unfold getTypeFromStatusByte. intros H.
  destruct (b <? 0x80) eqn:E1; [now cbn in H|].
  destruct (Z.eqb_spec b Undefined_FD) as [->|E2]; [now cbn in H|]. auto.
Qed.

Lemma data_byte d :
  0 <= d <= 127 ->
  (d <? 0x80) = true /\ (d >=? 0x80) = false /\ d <> Undefined_FD /\
  Z.land d 0x7f = d.
Proof.
  intros H. repeat split.
  - apply Z.ltb_lt. lia.
  - rewrite Z.geb_leb. apply Z.leb_gt. lia.
  - unfold Undefined_FD. lia.
  - change 0x7f with (Z.ones 7). rewrite Z.land_ones by lia.
    apply Z.mod_small. change (2 ^ 7) with 128. lia.
Qed.

(** ** One pass of the parser *)

Lemma parseByte_idle b s :
  b <> Undefined_FD -> mPendingMessageIndex s = 0 ->
  parseByte b s = parseIdle b (clearErrorBit ErrorParse s).
Proof.
  intros Hb Hi. unfold parseByte.
  destruct (Z.eqb_spec b Undefined_FD); [contradiction|].
  cbn. rewrite Hi. reflexivity.
Qed.

Lemma parseByte_pending b s :
  b <> Undefined_FD -> mPendingMessageIndex s <> 0 ->
  parseByte b s = parsePending b (clearErrorBit ErrorParse s).
Proof.
  intros Hb Hi. unfold parseByte.
  destruct (Z.eqb_spec b Undefined_FD); [contradiction|].
  cbn. destruct (Z.eqb_spec (mPendingMessageIndex s) 0); [contradiction|].
  reflexivity.
Qed.

Lemma startPending_status b s :
  (b <? 0x80) = false ->
  startPending b s = setPendingMessage (pendingSet 0 b (mPendingMessage s)) s.
Proof.
  intros Hb. unfold startPending. cbn.
  rewrite Hb. destruct (isChannelMessage _); reflexivity.
Qed.

Lemma startPending_running b s :
  (b <? 0x80) = true ->
  isChannelMessage (getTypeFromStatusByte (mRunningStatus_RX s)) = true ->
  startPending b s =
  setIndex 1
    (setPendingMessage
       {| byte0 := mRunningStatus_RX s; byte1 := b;
          byte2 := byte2 (mPendingMessage s) |} s).
Proof.
  intros Hb Hrs. unfold startPending. cbn. rewrite Hb, Hrs. reflexivity.
Qed.

Lemma startPending_stray b s :
  isChannelMessage (getTypeFromStatusByte (mRunningStatus_RX s)) = false ->
  startPending b s = setPendingMessage (pendingSet 0 b (mPendingMessage s)) s.
Proof.
  intros Hrs. unfold startPending. cbn. rewrite Hrs. reflexivity.
Qed.

(** A status byte of a two- or three-byte type opens a pending message. *)
Lemma parseIdle_opens b s :
  mPendingMessageIndex s = 0 ->
  In (getTypeFromStatusByte b) (twoByteTypes ++ threeByteTypes) ->
  parseIdle b s =
  (Again,
   setIndex 1
     (setExpectedLength
        (if oneOf (getTypeFromStatusByte b) twoByteTypes then 2 else 3)
        (setPendingMessage (pendingSet 0 b (mPendingMessage s)) s))).
Proof.
  intros Hi Hty.
  assert (Hs : (b <? 0x80) = false).
  { apply getType_status. intros E. rewrite E in Hty. in_cases Hty; discriminate. }
  unfold parseIdle. rewrite (startPending_status _ _ Hs). cbn.
  in_cases Hty; rewrite <- Hty; cbn; unfold idleLengthCheck; cbn;
    rewrite Hi; reflexivity.
Qed.

(** A single-byte status completes at once; the [length] field keeps the
    value the previous message left in it. *)
Lemma parseIdle_single b s :
  In b singleByteTypes ->
  parseIdle b s =
  (Done true,
   setExpectedLength 0
     (setIndex 0
        (setMessage
           {| channel := 0; type := b; data1 := 0; data2 := 0; valid := true;
              length := length (mMessage s) |}
           (setPendingMessage (pendingSet 0 b (mPendingMessage s)) s)))).
Proof.
  intros Hb. unfold parseIdle.
  in_cases Hb; subst b; rewrite startPending_status by reflexivity; reflexivity.
Qed.

(** The statuses the Idle [switch] sends to its [default] label. *)
Lemma parseIdle_invalid b s :
  (b <? 0x80) = false ->
  In (getTypeFromStatusByte b)
     [InvalidType; SystemExclusiveStart; SystemExclusiveEnd] ->
  parseIdle b s =
  parseError (setPendingMessage (pendingSet 0 b (mPendingMessage s)) s).
Proof.
  intros Hs Hty. unfold parseIdle. rewrite (startPending_status _ _ Hs). cbn.
  in_cases Hty; rewrite <- Hty; reflexivity.
Qed.

Lemma parseIdle_stray b s :
  (b <? 0x80) = true ->
  isChannelMessage (getTypeFromStatusByte (mRunningStatus_RX s)) = false ->
  parseIdle b s =
  parseError (setPendingMessage (pendingSet 0 b (mPendingMessage s)) s).
Proof.
  intros Hd Hrs. unfold parseIdle. rewrite (startPending_stray _ _ Hrs). cbn.
  unfold getTypeFromStatusByte. rewrite Hd. reflexivity.
Qed.

(** Running-status expansion: a data byte in Idle under a channel-voice
    running status. *)
Lemma parseIdle_running d s :
  (d <? 0x80) = true ->
  isChannelMessage (getTypeFromStatusByte (mRunningStatus_RX s)) = true ->
  let rs := mRunningStatus_RX s in
  let s1 := startPending d s in
  parseIdle d s =
  if oneOf (getTypeFromStatusByte rs) twoByteTypes then
    (Done true,
     setMessage {| channel := getChannelFromStatusByte rs;
                   type := getTypeFromStatusByte rs;
                   data1 := d; data2 := 0; valid := true; length := 1 |}
       (setExpectedLength 0 (setIndex 0 (setExpectedLength 2 s1))))
  else (Again, setIndex 2 (setExpectedLength 3 s1)).
Proof.
  intros Hd Hrs rs s1. unfold parseIdle. fold s1.
  assert (E1 : byte0 (mPendingMessage s1) = rs).
  { unfold s1. rewrite startPending_running by assumption. reflexivity. }
  assert (E2 : byte1 (mPendingMessage s1) = d).
  { unfold s1. rewrite startPending_running by assumption. reflexivity. }
  assert (E3 : mPendingMessageIndex s1 = 1).
  { unfold s1. rewrite startPending_running by assumption. reflexivity. }
  change (pendingGet 0 (mPendingMessage s1)) with (byte0 (mPendingMessage s1)).
  rewrite E1. fold rs in Hrs. apply isChannelMessage_cases in Hrs.
  repeat (destruct Hrs as [Hrs | Hrs]); rewrite Hrs; cbn;
    unfold idleLengthCheck; cbn; rewrite ?E1, ?E2, ?E3; reflexivity.
Qed.

Lemma oneOf_channel ty :
  oneOf ty [NoteOff; NoteOn; AfterTouchPoly; ControlChange; ProgramChange;
            AfterTouchChannel; PitchBend] = isChannelMessage ty.
Proof.
  unfold oneOf, isChannelMessage, existsb.
  destruct (ty =? NoteOff), (ty =? NoteOn), (ty =? AfterTouchPoly),
    (ty =? ControlChange), (ty =? ProgramChange), (ty =? AfterTouchChannel),
    (ty =? PitchBend); reflexivity.
Qed.

Lemma parsePending_data d s :
  (d >=? 0x80) = false -> parsePending d s = accumulate d s.
Proof. intros H. unfold parsePending. rewrite H. reflexivity. Qed.

(** The first data byte of a three-byte message. *)
Lemma accumulate_more d s :
  mPendingMessageIndex s = 1 -> mPendingMessageExpectedLength s = 3 ->
  accumulate d s =
  (Again, setIndex 2 (setPendingMessage (pendingSet 1 d (mPendingMessage s)) s)).
Proof.
  intros Hi Hl. unfold accumulate. cbn. rewrite Hi, Hl. reflexivity.
Qed.

(** The last data byte of a two- or three-byte message. *)
Lemma accumulate_last d s :
  (mPendingMessageIndex s = 1 /\ mPendingMessageExpectedLength s = 2) \/
  (mPendingMessageIndex s = 2 /\ mPendingMessageExpectedLength s = 3) ->
  exists s', accumulate d s = (Done true, s') /\ Completed d s s'.
Proof.
  intros H. unfold accumulate. cbv zeta. rewrite oneOf_channel. cbn.
  destruct H as [[Hi Hl] | [Hi Hl]]; rewrite Hi, Hl; cbn;
    destruct (isChannelMessage (getTypeFromStatusByte (byte0 (mPendingMessage s))))
      eqn:E;
    eexists; (split; [reflexivity|]);
    constructor; cbn; rewrite ?Hi, ?Hl, ?E; reflexivity.
Qed.

Lemma parseByte_data d s :
  0 <= d <= 127 -> mPendingMessageIndex s <> 0 ->
  parseByte d s = accumulate d (clearErrorBit ErrorParse s).
Proof.
  intros Hd Hi. destruct (data_byte d Hd) as (_ & Hge & Hfd & _).
  rewrite parseByte_pending by assumption. now apply parsePending_data.
Qed.

Section Parse.

Variable cfg : Settings.

Lemma parse_done b rx s r s' :
  parseByte b s = (Done r, s') -> parse cfg (b :: rx) s = (r, rx, s').
Proof. intros H. cbn. rewrite H. reflexivity. Qed.

(** With one byte in the queue a pass that ends in the tail call returns
    "no message" in both parsing modes. *)
Lemma parse_again b s s' :
  parseByte b s = (Again, s') -> parse cfg [b] s = (false, [], s').
Proof.
  intros H. cbn. rewrite H. destruct (Use1ByteParsing cfg); reflexivity.
Qed.

Lemma feed_app a b s :
  feed cfg (a ++ b) s =
  let '(ma, sa) := feed cfg a s in
  let '(mb, sb) := feed cfg b sa in
  (ma ++ mb, sb).
Proof.
  revert s. induction a as [|x a IH]; intros s.
  - cbn [app feed]. destruct (feed cfg b s). reflexivity.
  - cbn [app feed]. destruct (parse cfg [x] s) as [[r q] s1].
    rewrite IH. destruct (feed cfg a s1) as [ma sa].
    destruct (feed cfg b sa) as [mb sb]. now rewrite app_assoc.
Qed.

Lemma feed_one_done b s s' :
  parseByte b s = (Done true, s') -> feed cfg [b] s = ([mMessage s'], s').
Proof. intros H. cbn [feed]. rewrite (parse_done _ _ _ _ _ H). reflexivity. Qed.

Lemma feed_cons_again b bs s s' :
  parseByte b s = (Again, s') -> feed cfg (b :: bs) s = feed cfg bs s'.
Proof.
  intros H. cbn [feed]. rewrite (parse_again _ _ _ H).
  destruct (feed cfg bs s'). reflexivity.
Qed.


(** A complete message fed to an Idle parser, status byte first. *)
Lemma feed_fresh b d1 d2 s :
  mPendingMessageIndex s = 0 ->
  In (getTypeFromStatusByte b) (twoByteTypes ++ threeByteTypes) ->
  0 <= d1 <= 127 -> 0 <= d2 <= 127 ->
  let ty := getTypeFromStatusByte b in
  let short := oneOf ty twoByteTypes in
  exists s',
    feed cfg (b :: d1 :: if short then [] else [d2]) s = ([mMessage s'], s') /\
    type (mMessage s') = ty /\
    channel (mMessage s') =
      (if isChannelMessage ty then getChannelFromStatusByte b else 0) /\
    data1 (mMessage s') = d1 /\
    data2 (mMessage s') = (if short then 0 else d2) /\
    valid (mMessage s') = true /\
    mPendingMessageIndex s' = 0 /\
    mPendingMessageExpectedLength s' = 0 /\
    mRunningStatus_RX s' = (if isChannelMessage ty then b else InvalidType).
Proof.
  intros Hi Hty Hd1 Hd2 ty short.
  assert (Hb : b <> Undefined_FD).
  { apply getType_status. intros E. rewrite E in Hty. in_cases Hty; discriminate. }
  assert (E0 : parseByte b s =
               (Again, setIndex 1 (setExpectedLength (if short then 2 else 3)
                  (setPendingMessage
                     (pendingSet 0 b (mPendingMessage (clearErrorBit ErrorParse s)))
                     (clearErrorBit ErrorParse s))))).
  { rewrite parseByte_idle by assumption. now apply parseIdle_opens. }
  rewrite (feed_cons_again _ _ _ _ E0). clear E0.
  destruct short eqn:Hshort.
  - match goal with |- context [feed cfg _ ?s1] =>
      destruct (accumulate_last d1 (clearErrorBit ErrorParse s1)) as (s' & E1 & C);
        [left; split; reflexivity|];
      rewrite <- parseByte_data in E1 by (assumption || (cbn; discriminate))
    end.
    exists s'. rewrite (feed_one_done _ _ _ E1).
    destruct C as [Cm Ci Cl Cr _ _]. cbn in Cm, Cr.
    rewrite Cm, Ci, Cl, Cr. cbn. fold ty. repeat split; reflexivity.
  - match goal with |- context [feed cfg _ ?s1] =>
      assert (E1 : parseByte d1 s1 =
                   (Again, setIndex 2
                      (setPendingMessage
                         (pendingSet 1 d1 (mPendingMessage (clearErrorBit ErrorParse s1)))
                         (clearErrorBit ErrorParse s1))))
        by (rewrite parseByte_data by (assumption || (cbn; discriminate));
            now apply accumulate_more)
    end.
    rewrite (feed_cons_again _ _ _ _ E1). clear E1.
    match goal with |- context [feed cfg _ ?s2] =>
      destruct (accumulate_last d2 (clearErrorBit ErrorParse s2)) as (s' & E2 & C);
        [right; split; reflexivity|];
      rewrite <- parseByte_data in E2 by (assumption || (cbn; discriminate))
    end.
    exists s'. rewrite (feed_one_done _ _ _ E2).
    destruct C as [Cm Ci Cl Cr _ _]. cbn in Cm, Cr.
    rewrite Cm, Ci, Cl, Cr. cbn. fold ty. repeat split; reflexivity.
Qed.

(** The data bytes of a message fed to an Idle parser that remembers a
    channel-voice running status. *)
Lemma feed_running d1 d2 s :
  mPendingMessageIndex s = 0 ->
  isChannelMessage (getTypeFromStatusByte (mRunningStatus_RX s)) = true ->
  0 <= d1 <= 127 -> 0 <= d2 <= 127 ->
  let rs := mRunningStatus_RX s in
  let ty := getTypeFromStatusByte rs in
  let short := oneOf ty twoByteTypes in
  exists s',
    feed cfg (d1 :: if short then [] else [d2]) s = ([mMessage s'], s') /\
    type (mMessage s') = ty /\
    channel (mMessage s') = getChannelFromStatusByte rs /\
    data1 (mMessage s') = d1 /\
    data2 (mMessage s') = (if short then 0 else d2) /\
    valid (mMessage s') = true /\
    mPendingMessageIndex s' = 0 /\
    mPendingMessageExpectedLength s' = 0 /\
    mRunningStatus_RX s' = rs.
Proof.
  intros Hi Hrs Hd1 Hd2 rs ty short.
  destruct (data_byte d1 Hd1) as (Hlt & _ & Hfd & _).
  pose proof (parseIdle_running d1 (clearErrorBit ErrorParse s) Hlt Hrs) as E0.
  rewrite <- parseByte_idle in E0 by assumption.
  cbv zeta in E0. rewrite startPending_running in E0 by assumption.
  change (mRunningStatus_RX (clearErrorBit ErrorParse s)) with rs in E0.
  fold ty in E0. fold short in E0.
  destruct short eqn:Hshort.
  - match type of E0 with _ = (_, ?t) => exists t end.
    rewrite (feed_one_done _ _ _ E0). cbn. repeat split; reflexivity.
  - rewrite (feed_cons_again _ _ _ _ E0). clear E0.
    match goal with |- context [feed cfg _ ?s2] =>
      destruct (accumulate_last d2 (clearErrorBit ErrorParse s2)) as (s' & E2 & C);
        [right; split; reflexivity|];
      rewrite <- parseByte_data in E2 by (assumption || (cbn; discriminate))
    end.
    exists s'. rewrite (feed_one_done _ _ _ E2).
    destruct C as [Cm Ci Cl Cr _ _]. cbn in Cm, Cr.
    change (isChannelMessage (getTypeFromStatusByte rs) = true) in Hrs.
    rewrite Hrs in Cm, Cr.
    rewrite Cm, Ci, Cl, Cr. cbn. repeat split; reflexivity.
Qed.

End Parse.

(** ** The encoder *)

Lemma skipn_length_app {A} (a w : list A) : skipn (List.length a) (a ++ w) = w.
Proof. induction a as [|x a IH]; [reflexivity | exact IH]. Qed.

Lemma channel_type_lengths ty :
  isChannelMessage ty = true ->
  In ty (twoByteTypes ++ threeByteTypes) /\
  oneOf ty twoByteTypes =
    negb (negb (ty =? ProgramChange) && negb (ty =? AfterTouchChannel)) /\
  (ty <=? PitchBend) = true /\ (ty <? 0x80) = false.
Proof.
  intros H. apply isChannelMessage_cases in H.
  repeat (destruct H as [H | H]); subst ty; cbn; intuition congruence.
Qed.

Section Encoder.

Variable cfg : Settings.
Variable beginTransmission : Z -> bool.

Lemma updateLastSentTime_frame now s :
  let s' := updateLastSentTime cfg now s in
  written s' = written s /\ mRunningStatus_TX s' = mRunningStatus_TX s /\
  mCurrentRpnNumber s' = mCurrentRpnNumber s /\
  mCurrentNrpnNumber s' = mCurrentNrpnNumber s.
Proof.
  unfold updateLastSentTime.
  destruct (UseSenderActiveSensing cfg && _); cbn; auto.
Qed.

(** The wire bytes of a channel-voice [send]: the status byte unless
    running-status compression holds it back, then one or two data bytes. *)
Lemma send_written now ty d1 d2 ch s :
  isChannelMessage ty = true -> 1 <= ch <= 16 ->
  beginTransmission ty = true ->
  let status := getStatus ty ch in
  let s' := send cfg beginTransmission now ty d1 d2 ch s in
  written s' =
    written s ++
    (if UseRunningStatus cfg && (mRunningStatus_TX s =? status)
     then [] else [status]) ++
    Z.land d1 0x7f :: (if oneOf ty twoByteTypes then [] else [Z.land d2 0x7f]) /\
  mRunningStatus_TX s' =
    (if UseRunningStatus cfg then status else mRunningStatus_TX s) /\
  mCurrentRpnNumber s' = mCurrentRpnNumber s /\
  mCurrentNrpnNumber s' = mCurrentNrpnNumber s.
Proof.
  intros Hty Hch Hbt status s'. subst s'. unfold send.
  destruct (channel_type_lengths ty Hty) as (_ & Hshort & Hle & Hlt).
  rewrite Hle, Hlt, Hbt, Hshort.
  replace (ch >=? MIDI_CHANNEL_OFF) with false
    by (symmetry; rewrite Z.geb_leb; apply Z.leb_gt; unfold MIDI_CHANNEL_OFF; lia).
  replace (ch =? MIDI_CHANNEL_OMNI) with false
    by (symmetry; apply Z.eqb_neq; unfold MIDI_CHANNEL_OMNI; lia).
  cbv zeta. fold status. cbn [orb].
  match goal with |- context [updateLastSentTime cfg now ?t] =>
    destruct (updateLastSentTime_frame now t) as (-> & -> & -> & ->)
  end.
  destruct (UseRunningStatus cfg); cbn [andb];
    [destruct (Z.eqb_spec (mRunningStatus_TX s) status) as [E|E]|];
    destruct (negb (ty =? ProgramChange) && negb (ty =? AfterTouchChannel));
    cbn; rewrite <- ?app_assoc; auto.
Qed.

End Encoder.

Section RoundTrip.

Variable cfg : Settings.
Variable beginTransmission : Z -> bool.

(** C1 (as amended): a channel-voice tuple with channel 1..16, data bytes
    0..127 and, for the one-data-byte types ProgramChange and
    AfterTouchChannel, a second data byte of 0, sent with [send] through a
    transport that accepts the transmission and then fed byte by byte to an
    Idle parser (which holds the sender's running status whenever
    compression holds the status byte back), yields exactly one complete
    message, with the type, channel, data1 and data2 that were sent. *)
Theorem send_parse_roundtrip now ty d1 d2 ch (e p : Interface) :
  isChannelMessage ty = true ->
  1 <= ch <= 16 -> 0 <= d1 <= 127 -> 0 <= d2 <= 127 ->
  (ty = ProgramChange \/ ty = AfterTouchChannel -> d2 = 0) ->
  beginTransmission ty = true ->
  mPendingMessageIndex p = 0 ->
  (UseRunningStatus cfg = true -> mRunningStatus_TX e = getStatus ty ch ->
   mRunningStatus_RX p = getStatus ty ch) ->
  exists p',
    feed cfg (emitted (send cfg beginTransmission now ty d1 d2 ch) e) p
      = ([mMessage p'], p') /\
    type (mMessage p') = ty /\ channel (mMessage p') = ch /\
    data1 (mMessage p') = d1 /\ data2 (mMessage p') = d2 /\
    valid (mMessage p') = true.
Proof.
  intros Hty Hch Hd1 Hd2 Hone Hbt Hidle Hsync.
  destruct (getStatus_decodes ty ch Hty Hch) as (Dty & Dch & _).
  destruct (channel_type_lengths ty Hty) as (Hlen & Hshort & _).
  destruct (send_written cfg beginTransmission now ty d1 d2 ch e Hty Hch Hbt)
    as (Hw & _).
  unfold emitted. rewrite Hw, skipn_length_app. clear Hw.
  destruct (data_byte d1 Hd1) as (_ & _ & _ & ->).
  destruct (data_byte d2 Hd2) as (_ & _ & _ & ->).
  assert (Hd2' : (if oneOf ty twoByteTypes then 0 else d2) = d2).
  { destruct (oneOf ty twoByteTypes) eqn:E; [|reflexivity].
    symmetry. apply Hone. rewrite Hshort in E.
    destruct (Z.eqb_spec ty ProgramChange); [now left|].
    destruct (Z.eqb_spec ty AfterTouchChannel); [now right|discriminate]. }
  destruct (UseRunningStatus cfg && (mRunningStatus_TX e =? getStatus ty ch))
    eqn:Hrs; cbn [app].
  - apply andb_true_iff in Hrs. destruct Hrs as [Hu Heq]. apply Z.eqb_eq in Heq.
    specialize (Hsync Hu Heq).
    destruct (feed_running cfg d1 d2 p Hidle) as (p' & F & T & C & D1 & D2 & V & _);
      try assumption.
    { rewrite Hsync, Dty. exact Hty. }
    rewrite Hsync, Dty in F, T, D2. rewrite Hsync in C.
    exists p'. rewrite F, T, C, D1, D2, V, Hd2', ?Dch. repeat split; reflexivity.
  - destruct (feed_fresh cfg (getStatus ty ch) d1 d2 p Hidle)
      as (p' & F & T & C & D1 & D2 & V & _); try assumption.
    { rewrite Dty. exact Hlen. }
    rewrite Dty in F, T, C, D2. rewrite Hty in C.
    exists p'. rewrite F, T, C, D1, D2, V, Hd2', ?Dch. repeat split; reflexivity.
Qed.

End RoundTrip.

(** C1, witness: NoteOn(60, 100) on channel 1 between two fresh
    interfaces. *)
Lemma send_parse_roundtrip_witness :
  exists p',
    feed plainSettings
      (emitted (send plainSettings alwaysReady 0 NoteOn 60 100 1)
         (fresh plainSettings)) (fresh plainSettings)
      = ([mMessage p'], p') /\
    type (mMessage p') = NoteOn /\ channel (mMessage p') = 1 /\
    data1 (mMessage p') = 60 /\ data2 (mMessage p') = 100 /\
    valid (mMessage p') = true.
Proof.
  apply (send_parse_roundtrip plainSettings alwaysReady 0 NoteOn 60 100 1
           (fresh plainSettings) (fresh plainSettings)).
  - reflexivity.
  - lia.
  - lia.
  - lia.
  - intros [H | H]; discriminate H.
  - reflexivity.
  - reflexivity.
  - intros H; discriminate H.
Defined.

(** C1, counterexample to the claim as stated: ProgramChange carries one data
    byte on the wire, so the tuple (ProgramChange, 5, 7, channel 1), whose
    channel and data bytes are in range, comes back with data2 = 0. *)
Lemma send_ProgramChange_roundtrip_loses_data2 :
  emitted (send plainSettings alwaysReady 0 ProgramChange 5 7 1)
    (fresh plainSettings) = [0xC0; 5] /\
  fst (feed plainSettings
         (emitted (send plainSettings alwaysReady 0 ProgramChange 5 7 1)
            (fresh plainSettings)) (fresh plainSettings)) =
    [{| channel := 1; type := ProgramChange; data1 := 5; data2 := 0;
        valid := true; length := 0 |}] /\
  data2 (mMessage (snd (feed plainSettings
         (emitted (send plainSettings alwaysReady 0 ProgramChange 5 7 1)
            (fresh plainSettings)) (fresh plainSettings)))) <> 7.
Proof. vm_compute. repeat split; discriminate. Qed.

(** ** The pending index, and the two parsing modes *)

Lemma parseByte_pendingOK b s :
  pendingOK s -> pendingOK (snd (parseByte b s)).
Proof.
  intros H. unfold parseByte. cbv zeta.
  destruct (b =? Undefined_FD); [exact H|].
  change (mPendingMessageIndex (clearErrorBit ErrorParse s))
    with (mPendingMessageIndex s).
  destruct (Z.eqb_spec (mPendingMessageIndex s) 0) as [E0 | E0].
  - unfold parseIdle, parseError, idleLengthCheck. cbv zeta.
    assert (Hs : mPendingMessageIndex (startPending b (clearErrorBit ErrorParse s)) = 0 \/
                 mPendingMessageIndex (startPending b (clearErrorBit ErrorParse s)) = 1).
    { unfold startPending. cbv zeta. split_ifs; cbn; auto. }
    set (s1 := startPending b (clearErrorBit ErrorParse s)) in *. clearbody s1.
    cbn [mPendingMessageIndex mPendingMessageExpectedLength setExpectedLength].
    destruct Hs as [-> | ->]; cbn;
      split_ifs; cbn; unfold pendingOK; cbn; auto.
  - unfold parsePending, parseError, accumulate. cbv zeta.
    destruct H as [H | [[Hi Hl] | [Hi Hl]]]; [contradiction | |].
    + cbn [mPendingMessageIndex mPendingMessageExpectedLength clearErrorBit
           setLastError setPendingMessage].
      rewrite Hi. destruct Hl as [Hl | Hl]; rewrite Hl; cbn;
        split_ifs; cbn; unfold pendingOK; cbn; rewrite ?Hi, ?Hl; auto.
    + cbn [mPendingMessageIndex mPendingMessageExpectedLength clearErrorBit
           setLastError setPendingMessage].
      rewrite Hi, Hl. cbn. split_ifs; cbn; unfold pendingOK; cbn;
        rewrite ?Hi, ?Hl; auto.
Qed.

Section Modes.

Variable cfg : Settings.

Lemma parse_pendingOK rx : forall s,
  pendingOK s -> pendingOK (snd (parse cfg rx s)).
Proof.
  induction rx as [|b rx IH]; intros s H; [exact H|].
  cbn [parse]. pose proof (parseByte_pendingOK b s H) as H1.
  destruct (parseByte b s) as [[r|] s1]; cbn [snd] in *; [exact H1|].
  destruct (Use1ByteParsing cfg); [exact H1 | now apply IH].
Qed.

Lemma begin_pendingOK now ch s : pendingOK (begin now ch s).
Proof. left. reflexivity. Qed.

(** A call of [parse] on a non-empty queue takes at least one byte. *)
Lemma parse_consumes rx : forall s,
  rx <> [] ->
  (List.length (snd (fst (parse cfg rx s))) < List.length rx)%nat.
Proof.
  induction rx as [|b rx IH]; intros s H; [contradiction|].
  cbn [parse]. destruct (parseByte b s) as [[r|] s1]; cbn [fst snd List.length];
    [lia|].
  destruct (Use1ByteParsing cfg); cbn [fst snd]; [lia|].
  destruct rx as [|c rx]; [cbn; lia|].
  specialize (IH s1 ltac:(discriminate)). cbn [List.length] in *. lia.
Qed.

(** Feeding byte by byte is the same as letting one call of [parse] take
    what it takes from the queue and feeding the rest. *)
Lemma feed_parse rx : forall s,
  feed cfg rx s =
  let '(r, q, s') := parse cfg rx s in
  let '(ms, s'') := feed cfg q s' in
  ((if r then [mMessage s'] else []) ++ ms, s'').
Proof.
  induction rx as [|b rx IH]; intros s; [reflexivity|].
  cbn [feed parse].
  destruct (parseByte b s) as [[r|] s1].
  - reflexivity.
  - destruct (Use1ByteParsing cfg).
    + reflexivity.
    + cbn [app]. rewrite <- IH. destruct (feed cfg rx s1). reflexivity.
Qed.

(** Both parsing modes, with the whole sequence queued, complete the
    messages that byte-by-byte feeding completes. *)
Lemma drain_feed n : forall rx s,
  (List.length rx <= n)%nat -> drain cfg n rx s = feed cfg rx s.
Proof.
  induction n as [|n IH]; intros rx s H.
  - destruct rx; [reflexivity | cbn in H; lia].
  - destruct rx as [|b rx]; [reflexivity|].
    rewrite feed_parse. cbn [drain].
    pose proof (parse_consumes (b :: rx) s ltac:(discriminate)) as L.
    destruct (parse cfg (b :: rx) s) as [[r q] s1]. cbn [fst snd] in L.
    rewrite IH by (cbn [List.length] in *; lia). reflexivity.
Qed.

End Modes.

Section RunningStatus.

Variable cfg : Settings.

(** C2: from Idle, the bytes 0x90, 60, 100, 64, 101 yield two complete
    NoteOn messages on channel 1, (60, 100) and (64, 101), whether they are
    fed one at a time or queued together and [parse] is called until the
    queue is empty, in either parsing mode.  In general a
    data byte [d] that arrives in Idle under a channel-voice running status
    is stored as first data byte behind the remembered status byte, with
    the index at 1; the length check that follows then either waits for
    the second data byte (index 2) or, for the one-data-byte types,
    completes the message. *)
Theorem parse_running_status_expansion d (s : Interface) :
  mPendingMessageIndex s = 0 -> 0 <= d <= 127 ->
  (exists m1 m2 s',
     feed cfg [0x90; 60; 100; 64; 101] s = ([m1; m2], s') /\
     drain cfg 5 [0x90; 60; 100; 64; 101] s = ([m1; m2], s') /\
     (type m1 = NoteOn /\ channel m1 = 1 /\ data1 m1 = 60 /\ data2 m1 = 100 /\
      valid m1 = true) /\
     (type m2 = NoteOn /\ channel m2 = 1 /\ data1 m2 = 64 /\ data2 m2 = 101 /\
      valid m2 = true)) /\
  (isChannelMessage (getTypeFromStatusByte (mRunningStatus_RX s)) = true ->
   let rs := mRunningStatus_RX s in
   let s1 := startPending d (clearErrorBit ErrorParse s) in
   mPendingMessage s1 =
     {| byte0 := rs; byte1 := d; byte2 := byte2 (mPendingMessage s) |} /\
   mPendingMessageIndex s1 = 1 /\
   parseByte d s =
     (if oneOf (getTypeFromStatusByte rs) twoByteTypes then
        (Done true,
         setMessage {| channel := getChannelFromStatusByte rs;
                       type := getTypeFromStatusByte rs;
                       data1 := d; data2 := 0; valid := true; length := 1 |}
           (setExpectedLength 0 (setIndex 0 (setExpectedLength 2 s1))))
      else (Again, setIndex 2 (setExpectedLength 3 s1)))).
Proof.
  intros Hi Hd. split.
  - rewrite drain_feed by (cbn; lia).
    change [0x90; 60; 100; 64; 101] with ([0x90; 60; 100] ++ [64; 101]).
    rewrite feed_app.
    destruct (feed_fresh cfg 0x90 60 100 s Hi)
      as (s1 & F1 & T1 & C1 & A1 & B1 & V1 & I1 & _ & R1);
      [cbn; tauto | lia | lia |].
    change (feed cfg [0x90; 60; 100] s = ([mMessage s1], s1)) in F1.
    change (type (mMessage s1) = NoteOn) in T1.
    change (channel (mMessage s1) = 1) in C1.
    change (data2 (mMessage s1) = 100) in B1.
    change (mRunningStatus_RX s1 = 0x90) in R1. rewrite F1.
    destruct (feed_running cfg 64 101 s1 I1)
      as (s2 & F2 & T2 & C2 & A2 & B2 & V2 & _); [now rewrite R1 | lia | lia |].
    rewrite R1 in F2, T2, C2, B2.
    change (feed cfg [64; 101] s1 = ([mMessage s2], s2)) in F2.
    change (type (mMessage s2) = NoteOn) in T2.
    change (channel (mMessage s2) = 1) in C2.
    change (data2 (mMessage s2) = 101) in B2. rewrite F2.
    exists (mMessage s1), (mMessage s2), s2. cbn [app]. auto 10.
  - intros Hrs rs s1.
    destruct (data_byte d Hd) as (Hlt & _ & Hfd & _).
    assert (Hs1 : s1 = setIndex 1
              (setPendingMessage
                 {| byte0 := rs; byte1 := d; byte2 := byte2 (mPendingMessage s) |}
                 (clearErrorBit ErrorParse s)))
      by (unfold s1; now rewrite startPending_running).
    split; [rewrite Hs1; reflexivity|]. split; [rewrite Hs1; reflexivity|].
    rewrite parseByte_idle by assumption.
    exact (parseIdle_running d (clearErrorBit ErrorParse s) Hlt Hrs).
Qed.

End RunningStatus.

(** C2, witness: the second note's first data byte, 64, reaching a parser
    that has just completed NoteOn(60, 100) on channel 1. *)
Lemma parse_running_status_expansion_witness :
  parseByte 64 (snd (feed plainSettings [0x90; 60; 100] (fresh plainSettings))) =
  (Again,
   setIndex 2 (setExpectedLength 3
     (startPending 64
        (clearErrorBit ErrorParse
           (snd (feed plainSettings [0x90; 60; 100] (fresh plainSettings))))))).
Proof.
  apply (parse_running_status_expansion plainSettings 64
           (snd (feed plainSettings [0x90; 60; 100] (fresh plainSettings)))).
  - reflexivity.
  - lia.
  - reflexivity.
Defined.

(** ** The parser reads nothing but its pending state *)

Lemma clearErrorBit_same bit s t :
  samePending s t -> samePending (clearErrorBit bit s) (clearErrorBit bit t).
Proof. intros H. exact H. Qed.

Lemma startPending_same b s t :
  samePending s t -> samePending (startPending b s) (startPending b t).
Proof.
  intros H. same_fields H. unfold startPending. cbn. rewrite Hbuf, Hrs.
  split_ifs; unfold samePending; cbn; auto.
Qed.

Lemma parseError_same s t :
  samePending s t -> sameResult (parseError s) (parseError t).
Proof. intros H. same_fields H. unfold parseError. same_done. Qed.

Lemma idleLengthCheck_same ty s t :
  samePending s t ->
  sameResult (idleLengthCheck ty s) (idleLengthCheck ty t).
Proof.
  intros H. same_fields H. unfold idleLengthCheck. rewrite Hbuf, Hidx, Hlen.
  split_ifs; same_done.
Qed.

Lemma setExpectedLength_same n s t :
  samePending s t -> samePending (setExpectedLength n s) (setExpectedLength n t).
Proof. intros H. same_fields H. unfold samePending. cbn. auto. Qed.

Lemma parseIdle_same b s t :
  samePending s t -> sameResult (parseIdle b s) (parseIdle b t).
Proof.
  intros H. apply (startPending_same b) in H. unfold parseIdle. cbv zeta.
  assert (E : mPendingMessage (startPending b s) = mPendingMessage (startPending b t))
    by apply H.
  rewrite E. split_ifs.
  - same_fields H. same_done.
  - now apply idleLengthCheck_same, setExpectedLength_same.
  - now apply idleLengthCheck_same, setExpectedLength_same.
  - now apply parseError_same.
Qed.

Lemma accumulate_same b s t :
  samePending s t -> sameResult (accumulate b s) (accumulate b t).
Proof.
  intros H. same_fields H. unfold accumulate. cbv zeta. cbn.
  rewrite Hbuf, Hidx, Hlen. split_ifs; same_done.
Qed.

Lemma parsePending_same b s t :
  samePending s t -> sameResult (parsePending b s) (parsePending b t).
Proof.
  intros H. unfold parsePending. split_ifs.
  - same_fields H. same_done.
  - now apply parseError_same.
  - now apply accumulate_same.
  - now apply accumulate_same.
Qed.

Lemma parseByte_same b s t :
  samePending s t -> sameResult (parseByte b s) (parseByte b t).
Proof.
  intros H. unfold parseByte. cbv zeta.
  apply (clearErrorBit_same ErrorParse) in H.
  assert (E : mPendingMessageIndex (clearErrorBit ErrorParse s) =
              mPendingMessageIndex (clearErrorBit ErrorParse t)) by apply H.
  rewrite E. split_ifs.
  - split; [reflexivity|]. split; [exact H | discriminate].
  - now apply parseIdle_same.
  - now apply parsePending_same.
Qed.

Section Determined.

Variable cfg : Settings.

(** Two interfaces with the same pending state parse a queue alike: same
    result, same remaining queue, same pending state, and the same decoded
    message when one is complete. *)
Lemma parse_same rx : forall s t,
  samePending s t ->
  fst (fst (parse cfg rx s)) = fst (fst (parse cfg rx t)) /\
  snd (fst (parse cfg rx s)) = snd (fst (parse cfg rx t)) /\
  samePending (snd (parse cfg rx s)) (snd (parse cfg rx t)) /\
  (fst (fst (parse cfg rx s)) = true ->
   sameDecoded (mMessage (snd (parse cfg rx s))) (mMessage (snd (parse cfg rx t)))).
Proof.
  induction rx as [|b rx IH]; intros s t H.
  - cbn. split; [reflexivity|]. split; [reflexivity|]. split; [exact H|discriminate].
  - cbn [parse]. destruct (parseByte_same b s t H) as (Ho & Hp & Hd).
    destruct (parseByte b s) as [o s1], (parseByte b t) as [o' t1].
    cbn in Ho, Hp, Hd. subst o'. destruct o as [r|].
    + cbn. split; [reflexivity|]. split; [reflexivity|]. split; [exact Hp|].
      intros E. apply Hd. now rewrite E.
    + destruct (Use1ByteParsing cfg); [|now apply IH].
      cbn. split; [reflexivity|]. split; [reflexivity|]. split; [exact Hp|discriminate].
Qed.

End Determined.

Lemma parsePending_realtime b s :
  In b realTimeTypes ->
  parsePending b s =
  (Done true,
   setMessage {| channel := 0; type := b; data1 := 0; data2 := 0;
                 valid := true; length := 1 |} s).
Proof. intros Hb. in_cases Hb; subst b; reflexivity. Qed.

Section Interleaving.

Variable cfg : Settings.

(** C3: a system real-time status byte that arrives while a message is
    being accumulated is returned at once as a complete, valid one-byte
    message; buffer, index, expected length and RX running status stay as
    they were, and every later call of [parse] behaves as it would have
    without the interruption (same result, same queue, same pending state,
    same decoded message), so the interrupted message completes normally. *)
Theorem parse_realtime_interleaved b rx (s : Interface) :
  In b realTimeTypes -> mPendingMessageIndex s <> 0 ->
  exists s',
    parse cfg (b :: rx) s = (true, rx, s') /\
    mMessage s' = {| channel := 0; type := b; data1 := 0; data2 := 0;
                     valid := true; length := 1 |} /\
    mPendingMessage s' = mPendingMessage s /\
    mPendingMessageIndex s' = mPendingMessageIndex s /\
    mPendingMessageExpectedLength s' = mPendingMessageExpectedLength s /\
    mRunningStatus_RX s' = mRunningStatus_RX s /\
    forall later,
      fst (fst (parse cfg later s')) = fst (fst (parse cfg later s)) /\
      snd (fst (parse cfg later s')) = snd (fst (parse cfg later s)) /\
      samePending (snd (parse cfg later s')) (snd (parse cfg later s)) /\
      (fst (fst (parse cfg later s')) = true ->
       sameDecoded (mMessage (snd (parse cfg later s')))
                   (mMessage (snd (parse cfg later s)))).
Proof.
  intros Hb Hi.
  assert (Hfd : b <> Undefined_FD) by (in_cases Hb; subst b; discriminate).
  pose proof (parsePending_realtime b (clearErrorBit ErrorParse s) Hb) as E.
  rewrite <- parseByte_pending in E by assumption.
  eexists. split; [exact (parse_done cfg _ rx _ _ _ E)|].
  repeat (split; [reflexivity|]).
  intros later. apply parse_same. repeat split.
Qed.

End Interleaving.

(** C3, witness: the Clock byte 0xF8 arriving after the two bytes 0xB0, 7
    of a ControlChange; the value byte 64 then completes
    ControlChange(7, 64) on channel 1. *)
Lemma parse_realtime_interleaved_witness :
  (exists s',
     parse plainSettings [Clock; 64]
       (snd (feed plainSettings [0xB0; 7] (fresh plainSettings))) =
       (true, [64], s') /\
     type (mMessage s') = Clock /\
     mPendingMessage s' = {| byte0 := 0xB0; byte1 := 7; byte2 := 0 |} /\
     mPendingMessageIndex s' = 2) /\
  fst (feed plainSettings [0xB0; 7; 0xF8; 64] (fresh plainSettings)) =
    [{| channel := 0; type := Clock; data1 := 0; data2 := 0; valid := true;
        length := 1 |};
     {| channel := 1; type := ControlChange; data1 := 7; data2 := 64;
        valid := true; length := 1 |}].
Proof.
  split; [|reflexivity].
  destruct (parse_realtime_interleaved plainSettings Clock [64]
              (snd (feed plainSettings [0xB0; 7] (fresh plainSettings))))
    as (s' & P & M & B & I & _).
  - cbn. tauto.
  - vm_compute. discriminate.
  - exists s'. rewrite P, M, B, I. repeat split; reflexivity.
Defined.

(** ** The error bits *)

Lemma toInt8_testbit x n :
  0 <= n < 8 -> Z.testbit (toInt8 x) n = Z.testbit x n.
Proof. intros H. unfold toInt8. apply Z.mod_pow2_bits_low. lia. Qed.

Lemma setErrorBit_testbit bit n s :
  0 <= bit -> 0 <= n < 8 ->
  Z.testbit (mLastError (setErrorBit bit s)) n =
  (bit =? n) || Z.testbit (mLastError s) n.
Proof.
  intros Hb Hn. unfold setErrorBit. cbn [mLastError setLastError].
  rewrite toInt8_testbit by assumption.
  change (Z.lor (mLastError s) (Z.shiftl 1 bit)) with (Z.setbit (mLastError s) bit).
  now apply Z.setbit_eqb.
Qed.

Lemma clearErrorBit_testbit bit n s :
  0 <= bit -> 0 <= n < 8 ->
  Z.testbit (mLastError (clearErrorBit bit s)) n =
  Z.testbit (mLastError s) n && negb (bit =? n).
Proof.
  intros Hb Hn. unfold clearErrorBit. cbn [mLastError setLastError].
  rewrite toInt8_testbit by assumption.
  rewrite <- Z.ldiff_land.
  change (Z.ldiff (mLastError s) (Z.shiftl 1 bit))
    with (Z.clearbit (mLastError s) bit).
  now apply Z.clearbit_eqb.
Qed.

(** ** Parse errors *)

Lemma parseByte_error b s :
  parseErrorTrigger b s ->
  exists s0,
    parseByte b s = parseError s0 /\
    mLastError s0 = mLastError (clearErrorBit ErrorParse s).
Proof.
  intros [[Hi Hb] | [(Hi & Hb & Hrs) | [Hi Hb]]].
  - exists (setPendingMessage
              (pendingSet 0 b (mPendingMessage (clearErrorBit ErrorParse s)))
              (clearErrorBit ErrorParse s)).
    split; [|reflexivity].
    rewrite parseByte_idle by (assumption || (in_cases Hb; subst b; discriminate)).
    apply parseIdle_invalid; in_cases Hb; subst b; cbn; auto.
  - exists (setPendingMessage
              (pendingSet 0 b (mPendingMessage (clearErrorBit ErrorParse s)))
              (clearErrorBit ErrorParse s)).
    split; [|reflexivity].
    destruct (data_byte b Hb) as (Hlt & _ & Hfd & _).
    rewrite parseByte_idle by assumption.
    now apply parseIdle_stray.
  - exists (clearErrorBit ErrorParse s). split; [|reflexivity].
    rewrite parseByte_pending by (assumption || (in_cases Hb; subst b; discriminate)).
    in_cases Hb; subst b; reflexivity.
Qed.

(** ** The parse-error exit is taken on the three paths only *)

Lemma forall_status_bytes (f : Z -> bool) :
  forallb f (map Z.of_nat (seq 128 128)) = true ->
  forall b, 0x80 <= b <= 0xff -> f b = true.
Proof.
  intros H b Hb. rewrite forallb_forall in H. apply H.
  apply in_map_iff. exists (Z.to_nat b). split; [lia|].
  apply in_seq. lia.
Qed.

Lemma status_byte_classes b :
  0x80 <= b <= 0xff ->
  b = Undefined_FD \/
  In b singleByteTypes \/
  In (getTypeFromStatusByte b) (twoByteTypes ++ threeByteTypes) \/
  In b [SystemExclusiveStart; Undefined_F4; Undefined_F5; SystemExclusiveEnd].
Proof.
  intros Hb.
  pose proof (forall_status_bytes
    (fun b => (b =? Undefined_FD) || oneOf b singleByteTypes ||
              oneOf (getTypeFromStatusByte b) (twoByteTypes ++ threeByteTypes) ||
              oneOf b [SystemExclusiveStart; Undefined_F4; Undefined_F5;
                       SystemExclusiveEnd]) eq_refl b Hb) as H.
  cbv beta in H. rewrite !orb_true_iff, Z.eqb_eq, !oneOf_In in H. tauto.
Qed.

Lemma accumulate_outcome b s : fst (accumulate b s) <> Done false.
Proof. unfold accumulate. cbv zeta. split_ifs; discriminate. Qed.

Lemma parseByte_error_only b s :
  0 <= b <= 0xff -> fst (parseByte b s) = Done false -> parseErrorTrigger b s.
Proof.
  intros Hb H.
  destruct (Z.eq_dec b Undefined_FD) as [-> | Hfd]; [discriminate H|].
  destruct (Z.eq_dec (mPendingMessageIndex s) 0) as [Hi | Hi].
  - rewrite parseByte_idle in H by assumption.
    destruct (Z.le_gt_cases b 127) as [Hd | Hs].
    + destruct (isChannelMessage
                  (getTypeFromStatusByte (mRunningStatus_RX s))) eqn:Hrs.
      * destruct (data_byte b (conj (proj1 Hb) Hd)) as (Hlt & _).
        rewrite (parseIdle_running b (clearErrorBit ErrorParse s) Hlt Hrs) in H.
        destruct (oneOf _ twoByteTypes); discriminate H.
      * right. left. repeat split; (assumption || lia).
    + destruct (status_byte_classes b) as [E | [E | [E | E]]]; [lia | | | |].
      * contradiction.
      * rewrite parseIdle_single in H by assumption. discriminate H.
      * rewrite parseIdle_opens in H by assumption. discriminate H.
      * left. split; assumption.
  - rewrite parseByte_pending in H by assumption.
    unfold parsePending in H.
    destruct (b >=? 0x80); [|now apply accumulate_outcome in H].
    destruct (oneOf b [Clock; Start; Tick; Continue; Stop; ActiveSensing;
                       SystemReset]); [discriminate H|].
    destruct (oneOf b [SystemExclusiveStart; SystemExclusiveEnd]) eqn:E.
    + apply oneOf_In in E. right. right. split; assumption.
    + now apply accumulate_outcome in H.
Qed.

Section ErrorRecovery.

Variable cfg : Settings.

(** C4: on each parse-error path [parse] returns "no message" at once,
    with the ErrorParse bit set, index and expected length 0 and RX
    running status invalid; from the state it leaves, a single-byte status
    completes its message, and the status byte of a two- or three-byte
    message followed by its data bytes yields that message. *)
Theorem parse_error_recovery b rx (s : Interface) :
  parseErrorTrigger b s ->
  exists s',
    parse cfg (b :: rx) s = (false, rx, s') /\
    Z.testbit (mLastError s') ErrorParse = true /\
    mPendingMessageIndex s' = 0 /\
    mPendingMessageExpectedLength s' = 0 /\
    mRunningStatus_RX s' = InvalidType /\
    (forall st rx2, In st singleByteTypes ->
       exists s2, parse cfg (st :: rx2) s' = (true, rx2, s2) /\
         type (mMessage s2) = st /\ channel (mMessage s2) = 0 /\
         valid (mMessage s2) = true /\
         Z.testbit (mLastError s2) ErrorParse = false) /\
    (forall st d1 d2,
       In (getTypeFromStatusByte st) (twoByteTypes ++ threeByteTypes) ->
       0 <= d1 <= 127 -> 0 <= d2 <= 127 ->
       let ty := getTypeFromStatusByte st in
       let short := oneOf ty twoByteTypes in
       exists s2,
         feed cfg (st :: d1 :: if short then [] else [d2]) s' = ([mMessage s2], s2) /\
         type (mMessage s2) = ty /\
         channel (mMessage s2) =
           (if isChannelMessage ty then getChannelFromStatusByte st else 0) /\
         data1 (mMessage s2) = d1 /\
         data2 (mMessage s2) = (if short then 0 else d2) /\
         valid (mMessage s2) = true).
Proof.
  intros H. destruct (parseByte_error b s H) as (s0 & E & He).
  exists (snd (parseError s0)).
  split; [apply parse_done; rewrite E; reflexivity|].
  split.
  { unfold parseError. cbn [snd resetInput mLastError setRunningStatus_RX
      setExpectedLength setIndex].
    rewrite setErrorBit_testbit by (unfold ErrorParse; lia). reflexivity. }
  repeat (split; [reflexivity|]).
  split.
  - intros st rx2 Hst.
    assert (Hfd : st <> Undefined_FD) by (in_cases Hst; subst st; discriminate).
    pose proof (parseIdle_single st (clearErrorBit ErrorParse (snd (parseError s0))) Hst)
      as P.
    rewrite <- parseByte_idle in P by (assumption || reflexivity).
    eexists. split; [exact (parse_done cfg _ rx2 _ _ _ P)|].
    repeat (split; [reflexivity|]).
    cbn [mLastError setExpectedLength setIndex setMessage setPendingMessage].
    rewrite clearErrorBit_testbit by (unfold ErrorParse; lia).
    rewrite Z.eqb_refl. apply andb_false_r.
  - intros st d1 d2 Hty Hd1 Hd2 ty short.
    destruct (feed_fresh cfg st d1 d2 (snd (parseError s0)))
      as (s2 & F & T & C & D1 & D2 & V & _); try assumption; [reflexivity|].
    exists s2. auto 10.
Qed.

End ErrorRecovery.

(** C4, witness: the invalid status byte 0xF4 reaching a parser that has
    just completed a NoteOn. *)
Lemma parse_error_recovery_witness :
  exists s',
    parse plainSettings [Undefined_F4; 0x80]
      (snd (feed plainSettings [0x90; 60; 100] (fresh plainSettings))) =
      (false, [0x80], s') /\
    Z.testbit (mLastError s') ErrorParse = true /\
    mPendingMessageIndex s' = 0 /\
    mPendingMessageExpectedLength s' = 0 /\
    mRunningStatus_RX s' = InvalidType.
Proof.
  destruct (parse_error_recovery plainSettings Undefined_F4 [0x80]
              (snd (feed plainSettings [0x90; 60; 100] (fresh plainSettings))))
    as (s' & P & E & I & L & R & _).
  - left. split; [reflexivity | cbn; tauto].
  - exists s'. auto.
Defined.

(** ** Real-time sends *)

Section RealTime.

Variable cfg : Settings.
Variable beginTransmission : Z -> bool.

(** The six codes of the [switch] in [sendRealTime] go out as one byte and
    leave TX running status alone. *)
Lemma sendRealTime_one_byte now ty s :
  In ty [Clock; Start; Stop; Continue; ActiveSensing; SystemReset] ->
  beginTransmission ty = true ->
  let s' := sendRealTime cfg beginTransmission now ty s in
  written s' = written s ++ [ty] /\
  mRunningStatus_TX s' = mRunningStatus_TX s.
Proof.
  intros Hty Hbt. unfold sendRealTime. rewrite Hbt.
  apply oneOf_In in Hty. rewrite Hty.
  destruct (updateLastSentTime_frame cfg now (write ty s)) as (-> & -> & _).
  split; reflexivity.
Qed.

Lemma sendRealTime_other now ty s :
  ~ In ty [Clock; Start; Stop; Continue; ActiveSensing; SystemReset] ->
  sendRealTime cfg beginTransmission now ty s = s.
Proof.
  intros Hty. unfold sendRealTime.
  destruct (oneOf ty _) eqn:E; [|reflexivity].
  apply oneOf_In in E. contradiction.
Qed.

(** C5, the code at the failing input: [Tick] is not among the labels of
    the [switch] in [sendRealTime], so [sendRealTime(Tick)], and with it
    [sendTick()], hands no byte to the transport and changes nothing,
    whatever the transport answers. *)
Theorem sendRealTime_Tick_writes_nothing now (s : Interface) :
  sendRealTime cfg beginTransmission now Tick s = s /\
  sendTick cfg beginTransmission now s = s /\
  emitted (sendTick cfg beginTransmission now) s = [] /\
  emitted (send cfg beginTransmission now Tick 0 0 0) s = [].
Proof.
  assert (E : sendRealTime cfg beginTransmission now Tick s = s) by reflexivity.
  assert (N : skipn (List.length (written s)) (written s) = [])
    by apply skipn_all.
  repeat split; try exact E; unfold emitted, sendTick, send; cbn; exact N.
Qed.

End RealTime.

(** ** The error bits through [parse] and [read] *)

(** A pass of the parser leaves [mLastError] with the ErrorParse bit
    cleared, or cleared and set again on the parse-error exit. *)
Lemma parseByte_lastError b s :
  mLastError (snd (parseByte b s)) =
  match fst (parseByte b s) with
  | Done false => mLastError (setErrorBit ErrorParse (clearErrorBit ErrorParse s))
  | _ => mLastError (clearErrorBit ErrorParse s)
  end.
Proof.
  unfold parseByte, parseIdle, parsePending, accumulate, idleLengthCheck,
    parseError. cbv zeta.
  split_ifs; cbn [fst snd]; try reflexivity.
  all: unfold startPending; cbv zeta; split_ifs; reflexivity.
Qed.

Lemma land_bit0 e : Z.testbit e 0 = false -> Z.land e 1 = 0.
Proof.
  intros H. change 1 with (Z.ones 1). rewrite Z.land_ones by lia.
  rewrite Z.bit0_odd in H. change (2 ^ 1) with 2.
  rewrite Zmod_odd, H. reflexivity.
Qed.

Section ErrorBits.

Variable cfg : Settings.
Variable beginTransmission : Z -> bool.

Lemma parse_timeout_bit rx : forall s,
  Z.testbit (mLastError (snd (parse cfg rx s))) ErrorActiveSensingTimeout =
  Z.testbit (mLastError s) ErrorActiveSensingTimeout.
Proof.
  assert (Step : forall b s,
    Z.testbit (mLastError (snd (parseByte b s))) ErrorActiveSensingTimeout =
    Z.testbit (mLastError s) ErrorActiveSensingTimeout).
  { intros b s. rewrite parseByte_lastError.
    destruct (fst (parseByte b s)) as [[|]|];
      rewrite ?setErrorBit_testbit, ?clearErrorBit_testbit
        by (unfold ErrorParse, ErrorActiveSensingTimeout; lia);
      cbn; now rewrite ?andb_true_r. }
  induction rx as [|b rx IH]; intros s; [reflexivity|].
  cbn [parse]. specialize (Step b s).
  destruct (parseByte b s) as [[r|] s1]; cbn [snd] in *; [exact Step|].
  destruct (Use1ByteParsing cfg); [exact Step|]. now rewrite IH.
Qed.

(** When [parse] returns a message the ErrorParse bit is clear. *)
Lemma parse_true_no_error rx : forall s,
  fst (fst (parse cfg rx s)) = true ->
  Z.testbit (mLastError (snd (parse cfg rx s))) ErrorParse = false.
Proof.
  induction rx as [|b rx IH]; intros s; [discriminate|].
  cbn [parse]. pose proof (parseByte_lastError b s) as Step.
  destruct (parseByte b s) as [[r|] s1]; cbn [fst snd] in *.
  - intros ->. rewrite Step, clearErrorBit_testbit by (unfold ErrorParse; lia).
    rewrite Z.eqb_refl. apply andb_false_r.
  - destruct (Use1ByteParsing cfg); [discriminate|]. apply IH.
Qed.

Lemma heartbeat_lastError now s :
  mLastError (heartbeat cfg beginTransmission now s) = mLastError s.
Proof.
  unfold heartbeat, sendActiveSensing, sendRealTime, updateLastSentTime.
  split_ifs; reflexivity.
Qed.

Lemma checkTimeout_testbit now s n :
  0 <= n < 8 ->
  Z.testbit (mLastError (checkTimeout cfg now s)) n =
  Z.testbit (mLastError s) n ||
  ((n =? ErrorActiveSensingTimeout) &&
   negb (Z.testbit (mLastError s) n) &&
   negb (mReceiverActiveSensingActivated (checkTimeout cfg now s)) &&
   mReceiverActiveSensingActivated s).
Proof.
  intros Hn. unfold checkTimeout.
  destruct (UseReceiverActiveSensing cfg && _ && _) eqn:E.
  - apply andb_true_iff in E. destruct E as [E _].
    apply andb_true_iff in E. destruct E as [_ ->].
    rewrite setErrorBit_testbit by (unfold ErrorActiveSensingTimeout; lia || assumption).
    cbn [mLastError mReceiverActiveSensingActivated setReceiverActivated setErrorBit
         setLastError negb andb].
    rewrite Z.eqb_sym, andb_true_r.
    destruct (n =? ErrorActiveSensingTimeout), (Z.testbit (mLastError s) n);
      reflexivity.
  - destruct (mReceiverActiveSensingActivated s); cbn;
      now rewrite ?andb_false_r, orb_false_r.
Qed.

(** No read cycle takes the ActiveSensingTimeout bit back: the test before
    [clearErrorBit] in [read] looks at bit [ErrorActiveSensingTimeout - 1],
    the ErrorParse bit, which [parse] has just cleared. *)
Lemma read_keeps_timeout_bit now ch rx s :
  Z.testbit (mLastError s) ErrorActiveSensingTimeout = true ->
  Z.testbit (mLastError (snd (read cfg beginTransmission now ch rx s)))
    ErrorActiveSensingTimeout = true.
Proof.
  intros H. unfold read. cbv zeta.
  set (s2 := checkTimeout cfg now (heartbeat cfg beginTransmission now s)).
  assert (H2 : Z.testbit (mLastError s2) ErrorActiveSensingTimeout = true).
  { unfold s2. rewrite checkTimeout_testbit
      by (unfold ErrorActiveSensingTimeout; lia).
    now rewrite heartbeat_lastError, H. }
  clearbody s2. clear H.
  destruct (ch >=? MIDI_CHANNEL_OFF); [exact H2|].
  pose proof (parse_timeout_bit rx s2) as P.
  pose proof (parse_true_no_error rx s2) as Q.
  destruct (parse cfg rx s2) as [[r rx'] s3]. cbn [fst snd] in P, Q.
  rewrite H2 in P. destruct r; [|exact P].
  specialize (Q eq_refl). apply land_bit0 in Q.
  cbn [snd]. unfold handleNullVelocityNoteOnAsNoteOff.
  change (Z.shiftl 1 (ErrorActiveSensingTimeout - 1)) with 1.
  cbn [mLastError setReceiverActivated]. rewrite Q. cbn [Z.eqb negb].
  split_ifs; exact P.
Qed.

End ErrorBits.

(** ** The receive watchdog *)

(** C6, the code on the failing run: the first ActiveSensing arms the
    watchdog, the silent read cycle past the timeout disarms it and sets
    the timeout bit, the next silent cycle changes nothing (the bit is set
    once), and the next ActiveSensing is received and re-arms the watchdog
    but leaves the timeout bit set. *)
Theorem read_ActiveSensing_keeps_timeout_error :
  (mReceiverActiveSensingActivated armed = true /\
   Z.testbit (mLastError armed) ErrorActiveSensingTimeout = false) /\
  (mReceiverActiveSensingActivated timedOut = false /\
   Z.testbit (mLastError timedOut) ErrorActiveSensingTimeout = true) /\
  stillSilent = timedOut /\
  (fst (fst (read watchdogSettings alwaysReady 400 1 [ActiveSensing] timedOut))
     = true /\
   type (mMessage revived) = ActiveSensing /\
   mReceiverActiveSensingActivated revived = true /\
   Z.testbit (mLastError revived) ErrorActiveSensingTimeout = true).
Proof. vm_compute. repeat split; reflexivity. Qed.

Section Discard.

Variable cfg : Settings.

(** C7 (as amended): the reserved undefined code 0xFD is discarded: no
    message is produced, the ErrorParse bit is not set, running status,
    pending buffer, index, expected length and the stored message are
    untouched; in single-byte mode the call returns "no message", in greedy
    mode the parser goes on with the next byte of the queue. *)
Theorem parse_discards_Undefined_FD rx (s : Interface) :
  let s0 := clearErrorBit ErrorParse s in
  parse cfg (Undefined_FD :: rx) s =
    (if Use1ByteParsing cfg then (false, rx, s0) else parse cfg rx s0) /\
  Z.testbit (mLastError s0) ErrorParse = false /\
  mRunningStatus_RX s0 = mRunningStatus_RX s /\
  mPendingMessage s0 = mPendingMessage s /\
  mPendingMessageIndex s0 = mPendingMessageIndex s /\
  mPendingMessageExpectedLength s0 = mPendingMessageExpectedLength s /\
  mMessage s0 = mMessage s.
Proof.
  intros s0. split; [reflexivity|]. split; [|repeat split].
  unfold s0. rewrite clearErrorBit_testbit by (unfold ErrorParse; lia).
  rewrite Z.eqb_refl. apply andb_false_r.
Qed.

End Discard.

Section SingleByte.

Variable cfg : Settings.

(** C10: a single-byte status (the seven real-time codes or TuneRequest)
    met in Idle completes a message with that type, channel, data1 and
    data2 at 0 and [valid] true, whose [length] is the one the stored
    message already had; a real-time status met while a message is pending
    completes a message of the same shape with [length] 1. *)
Theorem parse_single_byte_length b rx (s : Interface) :
  (In b singleByteTypes -> mPendingMessageIndex s = 0 ->
   exists s',
     parse cfg (b :: rx) s = (true, rx, s') /\
     mMessage s' = {| channel := 0; type := b; data1 := 0; data2 := 0;
                      valid := true; length := length (mMessage s) |}) /\
  (In b realTimeTypes -> mPendingMessageIndex s <> 0 ->
   exists s',
     parse cfg (b :: rx) s = (true, rx, s') /\
     mMessage s' = {| channel := 0; type := b; data1 := 0; data2 := 0;
                      valid := true; length := 1 |}).
Proof.
  split; intros Hb Hi.
  - assert (Hfd : b <> Undefined_FD) by (in_cases Hb; subst b; discriminate).
    pose proof (parseIdle_single b (clearErrorBit ErrorParse s) Hb) as E.
    rewrite <- parseByte_idle in E by assumption.
    eexists. split; [exact (parse_done cfg _ rx _ _ _ E) | reflexivity].
  - assert (Hfd : b <> Undefined_FD) by (in_cases Hb; subst b; discriminate).
    pose proof (parsePending_realtime b (clearErrorBit ErrorParse s) Hb) as E.
    rewrite <- parseByte_pending in E by assumption.
    eexists. split; [exact (parse_done cfg _ rx _ _ _ E) | reflexivity].
Qed.

End SingleByte.

(** C7, counterexample to the claim as stated: of the codes the source
    calls undefined only 0xFD is discarded.  Met in Idle after a NoteOn,
    0xF4 and 0xF5 set the ErrorParse bit and invalidate the running
    status, and 0xF9 is the real-time code Tick and completes a message. *)
Lemma parse_Undefined_F4_F5_not_discarded :
  (mRunningStatus_RX afterNoteOn = 0x90 /\
   Z.testbit (mLastError afterNoteOn) ErrorParse = false) /\
  (fst (fst (parse plainSettings [Undefined_F4] afterNoteOn)) = false /\
   Z.testbit (mLastError (snd (parse plainSettings [Undefined_F4] afterNoteOn)))
     ErrorParse = true /\
   mRunningStatus_RX (snd (parse plainSettings [Undefined_F4] afterNoteOn))
     = InvalidType) /\
  (fst (fst (parse plainSettings [Undefined_F5] afterNoteOn)) = false /\
   Z.testbit (mLastError (snd (parse plainSettings [Undefined_F5] afterNoteOn)))
     ErrorParse = true /\
   mRunningStatus_RX (snd (parse plainSettings [Undefined_F5] afterNoteOn))
     = InvalidType) /\
  (fst (fst (parse plainSettings [0xF9] afterNoteOn)) = true /\
   type (mMessage (snd (parse plainSettings [0xF9] afterNoteOn))) = Tick).
Proof. vm_compute. repeat split; reflexivity. Qed.

(** C10, witness: a Clock byte and, with a ControlChange half received, a
    Start byte, after a NoteOn whose completion left [length] at 0. *)
Lemma parse_single_byte_length_witness :
  (exists s',
     parse plainSettings [Clock] afterNoteOn = (true, [], s') /\
     mMessage s' = {| channel := 0; type := Clock; data1 := 0; data2 := 0;
                      valid := true; length := 0 |}) /\
  (exists s',
     parse plainSettings [Start]
       (snd (feed plainSettings [0xB0; 7] afterNoteOn)) = (true, [], s') /\
     mMessage s' = {| channel := 0; type := Start; data1 := 0; data2 := 0;
                      valid := true; length := 1 |}).
Proof.
  split.
  - apply (parse_single_byte_length plainSettings Clock [] afterNoteOn).
    + cbn. tauto.
    + reflexivity.
  - apply (parse_single_byte_length plainSettings Start []
             (snd (feed plainSettings [0xB0; 7] afterNoteOn))).
    + cbn. tauto.
    + vm_compute. discriminate.
Defined.

(** ** The ErrorParse bit through [read] *)

Lemma toInt8_bits x n :
  0 <= n -> Z.testbit (toInt8 x) n = (n <? 8) && Z.testbit x n.
Proof.
  intros H. unfold toInt8. destruct (Z.ltb_spec n 8).
  - now rewrite Z.mod_pow2_bits_low.
  - rewrite Z.mod_pow2_bits_high by lia. reflexivity.
Qed.

Ltac bitwise :=
  apply Z.bits_inj'; intros n Hn;
  repeat (rewrite ?toInt8_bits, ?Z.land_spec, ?Z.lor_spec by assumption);
  destruct (n <? 8); cbn [andb];
  repeat match goal with
         | |- context [Z.testbit ?x n] => destruct (Z.testbit x n)
         end; reflexivity.

Lemma clear_clear e m : toInt8 (Z.land (toInt8 (Z.land e m)) m) = toInt8 (Z.land e m).
Proof. bitwise. Qed.

Lemma clear_set_clear e m t :
  toInt8 (Z.land (toInt8 (Z.lor (toInt8 (Z.land e m)) t)) m) =
  toInt8 (Z.land (toInt8 (Z.lor e t)) m).
Proof. bitwise. Qed.

Section ReadErrors.

Variable cfg : Settings.
Variable beginTransmission : Z -> bool.

(** With a byte in the queue [parse] starts by clearing the ErrorParse bit,
    so two interfaces that differ in that bit alone parse alike. *)
Lemma parse_cons_clears b rx s t :
  clearErrorBit ErrorParse s = clearErrorBit ErrorParse t ->
  parse cfg (b :: rx) s = parse cfg (b :: rx) t.
Proof.
  intros E. cbn [parse]. unfold parseByte. cbv zeta. rewrite E. reflexivity.
Qed.

Lemma heartbeat_setLastError now v s :
  heartbeat cfg beginTransmission now (setLastError v s) =
  setLastError v (heartbeat cfg beginTransmission now s).
Proof.
  unfold heartbeat, sendActiveSensing, sendRealTime, updateLastSentTime.
  cbn [mSenderActiveSensingPeriodicity mLastMessageSentTime setLastError write
       setWritten].
  split_ifs; reflexivity.
Qed.

Lemma checkTimeout_clear now s :
  clearErrorBit ErrorParse (checkTimeout cfg now (clearErrorBit ErrorParse s)) =
  clearErrorBit ErrorParse (checkTimeout cfg now s).
Proof.
  unfold checkTimeout.
  cbn [mReceiverActiveSensingActivated mLastMessageReceivedTime clearErrorBit
       setLastError].
  split_ifs; unfold clearErrorBit, setErrorBit;
    cbn [mLastError setLastError setReceiverActivated];
    rewrite ?clear_clear, ?clear_set_clear; reflexivity.
Qed.

Lemma read_clears_ParseError now ch b rx s :
  ch < MIDI_CHANNEL_OFF ->
  read cfg beginTransmission now ch (b :: rx) (clearErrorBit ErrorParse s) =
  read cfg beginTransmission now ch (b :: rx) s.
Proof.
  intros Hch. unfold read. cbv zeta.
  replace (ch >=? MIDI_CHANNEL_OFF) with false
    by (symmetry; rewrite Z.geb_leb; apply Z.leb_gt; exact Hch).
  match goal with
  | |- match parse cfg _ ?x with _ => _ end = match parse cfg _ ?y with _ => _ end =>
      rewrite (parse_cons_clears b rx x y); [reflexivity|]
  end.
  unfold clearErrorBit at 2. rewrite heartbeat_setLastError.
  rewrite <- (heartbeat_lastError cfg beginTransmission now s).
  apply checkTimeout_clear.
Qed.

(** C8 (as amended): a read cycle that finds no byte in the transport, or
    whose input channel is off, leaves the ErrorParse bit as it was; one
    that finds a byte, on an open channel, clears the bit before the byte
    is looked at, so that its outcome is the same as from an interface
    whose bit was clear; and the ActiveSensingTimeout bit survives every
    read cycle that does not receive an ActiveSensing message. *)
Theorem read_ParseError_clearing now ch rx (s : Interface) :
  (rx = [] \/ MIDI_CHANNEL_OFF <= ch ->
   Z.testbit (mLastError (snd (read cfg beginTransmission now ch rx s)))
     ErrorParse = Z.testbit (mLastError s) ErrorParse) /\
  (rx <> [] -> ch < MIDI_CHANNEL_OFF ->
   read cfg beginTransmission now ch rx s =
   read cfg beginTransmission now ch rx (clearErrorBit ErrorParse s)) /\
  (Z.testbit (mLastError s) ErrorActiveSensingTimeout = true ->
   ~ (fst (fst (read cfg beginTransmission now ch rx s)) = true /\
      type (mMessage (snd (read cfg beginTransmission now ch rx s)))
        = ActiveSensing) ->
   Z.testbit (mLastError (snd (read cfg beginTransmission now ch rx s)))
     ErrorActiveSensingTimeout = true).
Proof.
  split; [|split].
  - intros H. unfold read. cbv zeta.
    set (s2 := checkTimeout cfg now (heartbeat cfg beginTransmission now s)).
    assert (H2 : Z.testbit (mLastError s2) ErrorParse =
                 Z.testbit (mLastError s) ErrorParse).
    { unfold s2. rewrite checkTimeout_testbit by (unfold ErrorParse; lia).
      rewrite heartbeat_lastError. cbn [Z.eqb ErrorParse ErrorActiveSensingTimeout andb].
      apply orb_false_r. }
    clearbody s2.
    destruct (ch >=? MIDI_CHANNEL_OFF) eqn:Hch; [exact H2|].
    destruct H as [-> | H]; [exact H2|].
    rewrite Z.geb_leb in Hch. apply Z.leb_gt in Hch. lia.
  - intros Hrx Hch. destruct rx as [|b rx]; [contradiction|].
    symmetry. now apply read_clears_ParseError.
  - intros H _. now apply read_keeps_timeout_bit.
Qed.

End ReadErrors.

(** C8, witness: a read cycle with the byte 0x90 in the queue, started with
    the ErrorParse bit set. *)
Lemma read_ParseError_clearing_witness :
  Z.testbit (mLastError afterParseError) ErrorParse = true /\
  read plainSettings alwaysReady 0 1 [0x90] afterParseError =
  read plainSettings alwaysReady 0 1 [0x90]
    (clearErrorBit ErrorParse afterParseError) /\
  Z.testbit (mLastError
    (snd (read plainSettings alwaysReady 0 1 [0x90] afterParseError)))
    ErrorParse = false.
Proof.
  split; [reflexivity|]. split; [|reflexivity].
  apply (read_ParseError_clearing plainSettings alwaysReady 0 1 [0x90]
           afterParseError).
  - discriminate.
  - reflexivity.
Defined.

(** C8, counterexample to the claim as stated: a read cycle that finds the
    transport empty returns before the ErrorParse bit is cleared. *)
Lemma read_without_input_keeps_ParseError :
  Z.testbit (mLastError afterParseError) ErrorParse = true /\
  fst (fst (read plainSettings alwaysReady 0 1 [] afterParseError)) = false /\
  Z.testbit (mLastError (snd (read plainSettings alwaysReady 0 1 [] afterParseError)))
    ErrorParse = true.
Proof. vm_compute. repeat split; reflexivity. Qed.

(** ** RPN and NRPN selection *)

Lemma land_7f_twice n : Z.land (Z.land 0x7f n) 0x7f = Z.land n 0x7f.
Proof. rewrite (Z.land_comm 0x7f n), <- Z.land_assoc. reflexivity. Qed.

Lemma emitted_app op s w :
  written (op s) = written s ++ w -> emitted op s = w.
Proof. intros H. unfold emitted. rewrite H. apply skipn_length_app. Qed.

Lemma emitted_nothing op s : op s = s -> emitted op s = [].
Proof. intros H. unfold emitted. rewrite H. apply skipn_all. Qed.

Lemma land_7f_range x : 0 <= Z.land x 0x7f <= 127.
Proof.
  change (Z.land x 0x7f) with (Z.land x (Z.ones 7)).
  rewrite Z.land_ones by lia.
  pose proof (Z.mod_pos_bound x (2 ^ 7) eq_refl) as H.
  change (2 ^ 7) with 128 in *. lia.
Qed.

Section Decode.

Variable cfg : Settings.

(** A Control-Change on the wire, with or without its status byte, decoded
    by an Idle parser. *)
Lemma feed_ControlChange hdr c v ch p :
  1 <= ch <= 16 -> 0 <= c <= 127 -> 0 <= v <= 127 ->
  mPendingMessageIndex p = 0 ->
  hdr = [getStatus ControlChange ch] \/
  (hdr = [] /\ mRunningStatus_RX p = getStatus ControlChange ch) ->
  exists p',
    feed cfg (hdr ++ [c; v]) p = ([mMessage p'], p') /\
    (type (mMessage p') = ControlChange /\ channel (mMessage p') = ch /\
     data1 (mMessage p') = c /\ data2 (mMessage p') = v /\
     valid (mMessage p') = true) /\
    mPendingMessageIndex p' = 0 /\
    mRunningStatus_RX p' = getStatus ControlChange ch.
Proof.
  intros Hch Hc Hv Hi Hhdr.
  destruct (getStatus_decodes ControlChange ch eq_refl Hch) as (Dty & Dch & _).
  destruct Hhdr as [-> | [-> Hrs]].
  - destruct (feed_fresh cfg (getStatus ControlChange ch) c v p Hi)
      as (p' & F & T & C & D1 & D2 & V & I & _ & R); try assumption.
    { rewrite Dty. cbn. tauto. }
    rewrite Dty in F, T, C, D2, R.
    change (isChannelMessage ControlChange) with true in C, R.
    change (oneOf ControlChange twoByteTypes) with false in F, D2.
    cbv iota in F, C, D2, R. rewrite Dch in C. cbn [app].
    exists p'. auto 10.
  - destruct (feed_running cfg c v p Hi)
      as (p' & F & T & C & D1 & D2 & V & I & _ & R); try assumption.
    { rewrite Hrs, Dty. reflexivity. }
    rewrite Hrs in F, T, C, D2, R. rewrite Dty in F, T, D2. rewrite Dch in C.
    change (oneOf ControlChange twoByteTypes) with false in F, D2.
    cbv iota in F, D2. cbn [app].
    exists p'. auto 10.
Qed.

Lemma feed_ControlChange_pair hdr1 hdr2 c1 v1 c2 v2 ch p :
  1 <= ch <= 16 ->
  0 <= c1 <= 127 -> 0 <= v1 <= 127 -> 0 <= c2 <= 127 -> 0 <= v2 <= 127 ->
  mPendingMessageIndex p = 0 ->
  hdr1 = [getStatus ControlChange ch] \/
  (hdr1 = [] /\ mRunningStatus_RX p = getStatus ControlChange ch) ->
  hdr2 = [getStatus ControlChange ch] \/ hdr2 = [] ->
  exists m1 m2 p',
    feed cfg (hdr1 ++ [c1; v1] ++ hdr2 ++ [c2; v2]) p = ([m1; m2], p') /\
    controlChange m1 c1 v1 ch /\ controlChange m2 c2 v2 ch.
Proof.
  intros Hch Hc1 Hv1 Hc2 Hv2 Hi H1 H2.
  rewrite app_assoc, feed_app.
  destruct (feed_ControlChange hdr1 c1 v1 ch p Hch Hc1 Hv1 Hi H1)
    as (p1 & F1 & M1 & I1 & R1).
  rewrite F1.
  destruct (feed_ControlChange hdr2 c2 v2 ch p1 Hch Hc2 Hv2 I1)
    as (p2 & F2 & M2 & _).
  { destruct H2 as [-> | ->]; auto. }
  rewrite F2. exists (mMessage p1), (mMessage p2), p2. cbn [app]. auto.
Qed.

End Decode.

Section ParameterNumbers.

Variable cfg : Settings.
Variable beginTransmission : Z -> bool.

(** Two Control-Change sends in a row on a channel: the second status byte
    is held back exactly when compression is on. *)
Lemma sendControlChange_twice now c1 v1 c2 v2 ch s :
  1 <= ch <= 16 -> beginTransmission ControlChange = true ->
  0 <= c1 <= 127 -> 0 <= c2 <= 127 ->
  let st := getStatus ControlChange ch in
  let s' := sendControlChange cfg beginTransmission now c2 v2 ch
              (sendControlChange cfg beginTransmission now c1 v1 ch s) in
  written s' =
    written s ++
    (if UseRunningStatus cfg && (mRunningStatus_TX s =? st) then [] else [st]) ++
    [c1; Z.land v1 0x7f] ++
    (if UseRunningStatus cfg then [] else [st]) ++ [c2; Z.land v2 0x7f].
Proof.
  intros Hch Hbt Hc1 Hc2 st s'. subst s'. unfold sendControlChange.
  destruct (send_written cfg beginTransmission now ControlChange c1 v1 ch s
              eq_refl Hch Hbt) as (W1 & T1 & _).
  match goal with |- context [send cfg beginTransmission now ControlChange c2 v2 ch ?s1] =>
    destruct (send_written cfg beginTransmission now ControlChange c2 v2 ch s1
                eq_refl Hch Hbt) as (W2 & _)
  end.
  rewrite W2, W1, T1. fold st.
  destruct (data_byte c1 Hc1) as (_ & _ & _ & ->).
  destruct (data_byte c2 Hc2) as (_ & _ & _ & ->).
  change (oneOf ControlChange twoByteTypes) with false. cbv iota.
  destruct (UseRunningStatus cfg); cbn [andb].
  - rewrite Z.eqb_refl. cbn [app]. now rewrite <- !app_assoc.
  - cbn [app]. now rewrite <- !app_assoc.
Qed.

(** C9: [beginRpn(n, ch)] on a channel 1..16, through a transport that
    accepts Control-Change transmissions.  When the remembered selection is
    [n] the interface is unchanged and no byte is emitted; otherwise the
    emitted bytes are the two selection Control-Changes, controller 100
    with the low 7 bits of [n] then controller 101 with the next 7 bits
    (status bytes subject to running-status compression), which an Idle
    parser in step with the sender decodes to exactly these two messages,
    and the memo becomes [n]; a second call with the same number emits
    nothing.  [beginNrpn] does the same with its own memo and controllers
    98 and 99. *)
Theorem beginRpn_beginNrpn_memo now n ch (s : Interface) :
  1 <= ch <= 16 -> beginTransmission ControlChange = true ->
  let st := getStatus ControlChange ch in
  let lo := Z.land n 0x7f in
  let hi := Z.land (Z.shiftr n 7) 0x7f in
  let hdr1 := if UseRunningStatus cfg && (mRunningStatus_TX s =? st)
              then [] else [st] in
  let hdr2 := if UseRunningStatus cfg then [] else [st] in
  let inStep p :=
    mPendingMessageIndex p = 0 /\
    (UseRunningStatus cfg = true -> mRunningStatus_TX s = st ->
     mRunningStatus_RX p = st) in
  let rpn := beginRpn cfg beginTransmission now n ch in
  let nrpn := beginNrpn cfg beginTransmission now n ch in
  ((mCurrentRpnNumber s = n -> rpn s = s /\ emitted rpn s = []) /\
   (mCurrentRpnNumber s <> n ->
    mCurrentRpnNumber (rpn s) = n /\
    mCurrentNrpnNumber (rpn s) = mCurrentNrpnNumber s /\
    emitted rpn s = hdr1 ++ [RPNLSB; lo] ++ hdr2 ++ [RPNMSB; hi] /\
    forall p, inStep p ->
      exists m1 m2 p',
        feed cfg (emitted rpn s) p = ([m1; m2], p') /\
        controlChange m1 RPNLSB lo ch /\ controlChange m2 RPNMSB hi ch) /\
   rpn (rpn s) = rpn s /\ emitted rpn (rpn s) = []) /\
  ((mCurrentNrpnNumber s = n -> nrpn s = s /\ emitted nrpn s = []) /\
   (mCurrentNrpnNumber s <> n ->
    mCurrentNrpnNumber (nrpn s) = n /\
    mCurrentRpnNumber (nrpn s) = mCurrentRpnNumber s /\
    emitted nrpn s = hdr1 ++ [NRPNLSB; lo] ++ hdr2 ++ [NRPNMSB; hi] /\
    forall p, inStep p ->
      exists m1 m2 p',
        feed cfg (emitted nrpn s) p = ([m1; m2], p') /\
        controlChange m1 NRPNLSB lo ch /\ controlChange m2 NRPNMSB hi ch) /\
   nrpn (nrpn s) = nrpn s /\ emitted nrpn (nrpn s) = []).
Proof.
  intros Hch Hbt st lo hi hdr1 hdr2 inStep rpn nrpn.
  assert (Rsame : forall t, mCurrentRpnNumber t = n -> rpn t = t).
  { intros t E. unfold rpn, beginRpn. rewrite E, Z.eqb_refl. reflexivity. }
  assert (Nsame : forall t, mCurrentNrpnNumber t = n -> nrpn t = t).
  { intros t E. unfold nrpn, beginNrpn. rewrite E, Z.eqb_refl. reflexivity. }
  assert (Rmemo : mCurrentRpnNumber (rpn s) = n).
  { unfold rpn, beginRpn. destruct (Z.eqb_spec (mCurrentRpnNumber s) n); auto. }
  assert (Nmemo : mCurrentNrpnNumber (nrpn s) = n).
  { unfold nrpn, beginNrpn. destruct (Z.eqb_spec (mCurrentNrpnNumber s) n); auto. }
  assert (Decode : forall c1 c2 p, 0 <= c1 <= 127 -> 0 <= c2 <= 127 -> inStep p ->
    exists m1 m2 p',
      feed cfg (hdr1 ++ [c1; lo] ++ hdr2 ++ [c2; hi]) p = ([m1; m2], p') /\
      controlChange m1 c1 lo ch /\ controlChange m2 c2 hi ch).
  { intros c1 c2 p Hc1 Hc2 [Hi Hsync].
    apply feed_ControlChange_pair;
      try assumption; try apply land_7f_range.
    - unfold hdr1. destruct (UseRunningStatus cfg); cbn [andb]; [|now left].
      destruct (Z.eqb_spec (mRunningStatus_TX s) st); [right | now left].
      split; [reflexivity | now apply Hsync].
    - unfold hdr2. destruct (UseRunningStatus cfg); auto. }
  split; (split; [|split; [|split]]).
  - intros E. split; [now apply Rsame | now apply emitted_nothing, Rsame].
  - intros E. split; [exact Rmemo|].
    assert (Em : emitted rpn s = hdr1 ++ [RPNLSB; lo] ++ hdr2 ++ [RPNMSB; hi]).
    { apply emitted_app. unfold rpn, beginRpn. apply Z.eqb_neq in E. rewrite E.
      cbn [negb written setRpnNumber].
      rewrite sendControlChange_twice by (assumption || (unfold RPNLSB, RPNMSB; lia)).
      rewrite !land_7f_twice. reflexivity. }
    split; [|split; [exact Em|]].
    + unfold rpn, beginRpn. apply Z.eqb_neq in E. rewrite E. cbv zeta.
      cbn [negb mCurrentNrpnNumber setRpnNumber]. unfold sendControlChange.
      repeat match goal with
      | |- context [send cfg beginTransmission now ControlChange ?c ?v ch ?t] =>
          destruct (send_written cfg beginTransmission now ControlChange c v ch t
                      eq_refl Hch Hbt) as (_ & _ & _ & ->)
      end. reflexivity.
    + intros p Hp. rewrite Em.
      apply Decode; (assumption || (unfold RPNLSB, RPNMSB; lia)).
  - now apply Rsame.
  - now apply emitted_nothing, Rsame.
  - intros E. split; [now apply Nsame | now apply emitted_nothing, Nsame].
  - intros E. split; [exact Nmemo|].
    assert (Em : emitted nrpn s = hdr1 ++ [NRPNLSB; lo] ++ hdr2 ++ [NRPNMSB; hi]).
    { apply emitted_app. unfold nrpn, beginNrpn. apply Z.eqb_neq in E. rewrite E.
      cbn [negb written setNrpnNumber].
      rewrite sendControlChange_twice
        by (assumption || (unfold NRPNLSB, NRPNMSB; lia)).
      rewrite !land_7f_twice. reflexivity. }
    split; [|split; [exact Em|]].
    + unfold nrpn, beginNrpn. apply Z.eqb_neq in E. rewrite E. cbv zeta.
      cbn [negb mCurrentRpnNumber setNrpnNumber]. unfold sendControlChange.
      repeat match goal with
      | |- context [send cfg beginTransmission now ControlChange ?c ?v ch ?t] =>
          destruct (send_written cfg beginTransmission now ControlChange c v ch t
                      eq_refl Hch Hbt) as (_ & _ & -> & _)
      end. reflexivity.
    + intros p Hp. rewrite Em.
      apply Decode; (assumption || (unfold NRPNLSB, NRPNMSB; lia)).
  - now apply Nsame.
  - now apply emitted_nothing, Nsame.
Qed.

End ParameterNumbers.

(** C9, witness: [beginRpn(5, 1)] and [beginNrpn(5, 1)] on a fresh
    interface, where no parameter is selected. *)
Lemma beginRpn_beginNrpn_memo_witness :
  emitted (beginRpn plainSettings alwaysReady 0 5 1) (fresh plainSettings) =
    [0xB0; 100; 5; 0xB0; 101; 0] /\
  emitted (beginRpn plainSettings alwaysReady 0 5 1)
    (beginRpn plainSettings alwaysReady 0 5 1 (fresh plainSettings)) = [] /\
  emitted (beginNrpn plainSettings alwaysReady 0 5 1) (fresh plainSettings) =
    [0xB0; 98; 5; 0xB0; 99; 0].
Proof.
  destruct (beginRpn_beginNrpn_memo plainSettings alwaysReady 0 5 1
              (fresh plainSettings)) as ((_ & R & _ & R2) & (_ & N & _)).
  - lia.
  - reflexivity.
  - destruct R as (_ & _ & R & _); [discriminate|].
    destruct N as (_ & _ & N & _); [discriminate|].
    rewrite R, R2, N. repeat split; reflexivity.
Defined.
